(** * PlantScanner: the capture, classify, normalise and present pipeline

    A shallow embedding of [src/components/PlantScanner.tsx].  The component
    keeps three pieces of React state ([isScanning], [imagePreview],
    [result]) and one ref to the file input; [handleImageCapture] is an
    [async] function with three suspension points, [handleClear] is
    synchronous.

    The development has four layers:
    - [JS]: the JavaScript values the handler sees (parsed JSON and
      [undefined]) with the operators the source applies to them;
    - [Async]: a small free monad of component effects, exceptions,
      [try]/[catch]/[finally] and suspension points;
    - the component itself: [handleImageCapture], [handleClear], the
      confidence line of the result card, and an event loop in which the
      environment answers pending operations in any order, interleaved with
      the user's captures and clears;
    - the properties of the pipeline, first the lemmas about running the
      handler, then one section per property.

    Numbers are binary64 floats.  Three conversions of the language are
    left out ([StringToNumber], [Array.prototype.join], and
    [Number::toString] away from the integers); an expression that needs
    one evaluates to [Unmodelled], the computation is [Stuck], and the
    session records it in [beyond]. *)

From Stdlib Require Import ZArith String Ascii List Bool Lia DecimalString.
From Stdlib Require Import PrimFloat FloatOps SpecFloat.
From stdpp Require Import base option strings gmap.

Set Warnings "-inexact-float,-register-all".
Local Open Scope string_scope.
Local Open Scope list_scope.

(** ** JavaScript values *)

Module JS.

(** What [response.json()] can produce.  Numbers are binary64 floats, as
    in the language.  A string is a sequence of code units; a Rocq string
    carries the code units below 256. *)
Inductive json : Type :=
| JNull
| JBool (b : bool)
| JNum (x : float)
| JStr (s : string)
| JArr (elems : list json)
| JObj (props : list (string * json)).

(** A value is a JSON value or [undefined]. *)
Definition value : Type := option json.
Definition undefined : value := None.

(** What a [throw] or a rejected promise carries. *)
Inductive thrown : Type :=
| TypeError
| ProgressEvent
| Reason (what : string).

(** Evaluation of an expression: a value, an exception, or a coercion this
    development does not model ([StringToNumber], [Array.prototype.join],
    [Number::toString] of a non-integer). *)
Inductive eval (A : Type) : Type :=
| Val (a : A)
| Exc (e : thrown)
| Unmodelled.
Arguments Val {A} a.
Arguments Exc {A} e.
Arguments Unmodelled {A}.

#[export] Instance eval_ret : MRet eval := fun A a => Val a.
#[export] Instance eval_bind : MBind eval := fun A B f m =>
  match m with
  | Val a => f a
  | Exc e => Exc e
  | Unmodelled => Unmodelled
  end.

(** *** Property access *)

Fixpoint own_prop (key : string) (props : list (string * json)) : value :=
  match props with
  | [] => None
  | (k, v) :: rest => if String.eqb k key then Some v else own_prop key rest
  end.

Definition has_own (key : string) (props : list (string * json)) : bool :=
  match own_prop key props with Some _ => true | None => false end.

Definition nullish (v : value) : bool :=
  match v with
  | None | Some JNull => true
  | Some _ => false
  end.

(** [v.key], for a [key] that no prototype defines (every name the source
    reads except [length]): a [TypeError] on [null] and [undefined], the own
    property of an object, [undefined] on everything else. *)
Definition get (v : value) (key : string) : eval value :=
  match v with
  | None | Some JNull => Exc TypeError
  | Some (JObj props) => Val (own_prop key props)
  | Some _ => Val None
  end.

(** [v?.key]: [undefined] where [v.key] would throw. *)
Definition opt_get (v : value) (key : string) : value :=
  match v with
  | Some (JObj props) => own_prop key props
  | _ => None
  end.

(** [v[0]]. *)
Definition first_index (v : value) : eval value :=
  match v with
  | None | Some JNull => Exc TypeError
  | Some (JArr elems) => Val (head elems)
  | Some (JStr s) =>
      Val (match s with
           | EmptyString => None
           | String c _ => Some (JStr (String c EmptyString))
           end)
  | Some (JObj props) => Val (own_prop "0" props)
  | Some _ => Val None
  end.

(** *** Coercions *)

(** [ToBoolean]. *)
Definition to_boolean (v : value) : bool :=
  match v with
  | None | Some JNull => false
  | Some (JBool b) => b
  | Some (JNum x) => negb (PrimFloat.eqb x 0 || PrimFloat.is_nan x)
  | Some (JStr s) => negb (String.eqb s EmptyString)
  | Some (JArr _) | Some (JObj _) => true
  end.

(** [a || b]. *)
Definition or_else (a b : value) : value := if to_boolean a then a else b.

(** [v > 0].  [undefined] converts to [NaN], [null] to [0], a boolean to
    [0] or [1], the empty string and the empty array to [0]; an object
    converts through [Object.prototype.toString] to [NaN], unless an own
    [toString] property (never callable in parsed JSON) hides it, which is a
    [TypeError]. *)
Definition gt_zero (v : value) : eval bool :=
  match v with
  | None | Some JNull => Val false
  | Some (JBool b) => Val b
  | Some (JNum x) => Val (PrimFloat.ltb 0 x)
  | Some (JStr EmptyString) => Val false
  | Some (JStr _) => Unmodelled
  | Some (JArr []) => Val false
  | Some (JArr _) => Unmodelled
  | Some (JObj props) =>
      if has_own "toString" props then Exc TypeError else Val false
  end.

(** [v?.length > 0].  The [length] of an array or of a string counts its
    elements, so it is positive exactly when there is a first one; an
    object has a [length] only as an own property; numbers and booleans
    have none. *)
Definition length_gt_zero (v : value) : eval bool :=
  match v with
  | None | Some JNull => Val false
  | Some (JArr elems) => Val (match elems with [] => false | _ :: _ => true end)
  | Some (JStr s) => Val (negb (String.eqb s EmptyString))
  | Some (JObj props) => gt_zero (own_prop "length" props)
  | Some (JBool _) | Some (JNum _) => Val false
  end.

(** *** Numbers as text *)

Definition digits (n : Z) : string := NilZero.string_of_uint (N.to_uint (Z.to_N n)).

(** The exact value of a finite float is [m * 2^e]. *)
Definition integral (m : positive) (e : Z) : option Z :=
  if (0 <=? e)%Z then Some (Z.pos m * 2 ^ e)%Z
  else if (Z.pos m mod 2 ^ (- e) =? 0)%Z then Some (Z.pos m / 2 ^ (- e))%Z
  else None.

Definition signed (negative : bool) (s : string) : string :=
  if negative then "-" +:+ s else s.

(** [Number::toString], defined on the integers below [10^21] and on the
    special values. *)
Definition number_to_string (x : float) : option string :=
  match Prim2SF x with
  | S754_nan => Some "NaN"
  | S754_zero _ => Some "0"
  | S754_infinity s => Some (signed s "Infinity")
  | S754_finite s m e =>
      match integral m e with
      | Some n => if (n <? 10 ^ 21)%Z then Some (signed s (digits n)) else None
      | None => None
      end
  end.

(** The integer nearest to [m * 2^e * 10], the larger one on a tie. *)
Definition nearest_tenths (m : positive) (e : Z) : Z :=
  if (0 <=? e)%Z then (Z.pos m * 2 ^ e * 10)%Z
  else ((20 * Z.pos m + 2 ^ (- e)) / 2 ^ (1 - e))%Z.

(** [x.toFixed(1)].  At [10^21] and above the language falls back to
    [Number::toString], which is exponent notation there. *)
Definition toFixed1 (x : float) : option string :=
  match Prim2SF x with
  | S754_nan => Some "NaN"
  | S754_zero _ => Some "0.0"
  | S754_infinity s => Some (signed s "Infinity")
  | S754_finite s m e =>
      if ((0 <=? e) && (10 ^ 21 <=? Z.pos m * 2 ^ e))%Z then None
      else
        let n := nearest_tenths m e in
        Some (signed s (digits (n / 10) +:+ "." +:+ digits (n mod 10)))
  end.

(** [ToNumber]. *)
Definition to_number (v : value) : eval float :=
  match v with
  | None => Val nan
  | Some JNull => Val 0%float
  | Some (JBool b) => Val (if b then 1%float else 0%float)
  | Some (JNum x) => Val x
  | Some (JStr EmptyString) => Val 0%float
  | Some (JStr _) => Unmodelled
  | Some (JArr []) => Val 0%float
  | Some (JArr _) => Unmodelled
  | Some (JObj props) =>
      if has_own "toString" props then Exc TypeError else Val nan
  end.

Definition of_option {A} (o : option A) : eval A :=
  match o with Some a => Val a | None => Unmodelled end.

(** [ToString], as a template literal applies it. *)
Definition to_string (v : value) : eval string :=
  match v with
  | None => Val "undefined"
  | Some JNull => Val "null"
  | Some (JBool b) => Val (if b then "true" else "false")
  | Some (JNum x) => of_option (number_to_string x)
  | Some (JStr s) => Val s
  | Some (JArr []) => Val EmptyString
  | Some (JArr _) => Unmodelled
  | Some (JObj props) =>
      if has_own "toString" props then Exc TypeError else Val "[object Object]"
  end.

(** *** [JSON.stringify] *)

Definition quote_char : ascii := "034"%char.
Definition backslash_char : ascii := "092"%char.

Definition hex_digit (n : N) : ascii :=
  ascii_of_N (if (n <? 10)%N then 48 + n else 87 + n).

Definition escape (c : ascii) : string :=
  let n := N_of_ascii c in
  if Ascii.eqb c quote_char then String backslash_char (String quote_char EmptyString)
  else if Ascii.eqb c backslash_char then String backslash_char (String backslash_char EmptyString)
  else if (n =? 8)%N then String backslash_char "b"
  else if (n =? 9)%N then String backslash_char "t"
  else if (n =? 10)%N then String backslash_char "n"
  else if (n =? 12)%N then String backslash_char "f"
  else if (n =? 13)%N then String backslash_char "r"
  else if (n <? 32)%N then
    String backslash_char
      ("u00" +:+ String (hex_digit (n / 16)) (String (hex_digit (n mod 16)) EmptyString))
  else String c EmptyString.

Fixpoint escape_all (s : string) : string :=
  match s with
  | EmptyString => EmptyString
  | String c rest => escape c +:+ escape_all rest
  end.

(** [QuoteJSONString]. *)
Definition quote (s : string) : string :=
  String quote_char (escape_all s +:+ String quote_char EmptyString).

Fixpoint join (parts : list string) : string :=
  match parts with
  | [] => EmptyString
  | [p] => p
  | p :: rest => p +:+ "," +:+ join rest
  end.

(** The text of a value built from literals, without indentation.  A number
    that is not finite is written [null]. *)
Fixpoint JSON_stringify (j : json) : eval string :=
  match j with
  | JNull => Val "null"
  | JBool b => Val (if b then "true" else "false")
  | JNum x =>
      match Prim2SF x with
      | S754_nan | S754_infinity _ => Val "null"
      | _ => of_option (number_to_string x)
      end
  | JStr s => Val (quote s)
  | JArr elems =>
      parts ← (fix each (l : list json) : eval (list string) :=
                 match l with
                 | [] => Val []
                 | x :: rest =>
                     a ← JSON_stringify x; b ← each rest; mret (a :: b)
                 end) elems;
      mret ("[" +:+ join parts +:+ "]")
  | JObj props =>
      parts ← (fix each (l : list (string * json)) : eval (list string) :=
                 match l with
                 | [] => Val []
                 | (k, x) :: rest =>
                     a ← JSON_stringify x; b ← each rest;
                     mret ((quote k +:+ ":" +:+ a) :: b)
                 end) props;
      mret ("{" +:+ join parts +:+ "}")
  end.

End JS.
Import JS.

(** ** The data the component handles *)

(** A [File] picked through the hidden input; its contents are opaque. *)
Record File : Type := { file_name : string; file_contents : string }.

(** The [Response] of [fetch]; the handler only asks it for its JSON. *)
Record Response : Type := { status : Z; body_text : string }.

(** The second argument of [fetch].  A header value is what the source
    passes: a string, or [undefined] when the build defines no key. *)
Record RequestInit : Type := {
  method : string;
  headers : list (string * option string);
  body : string
}.

(** [import.meta.env]. *)
Record ImportMetaEnv : Type := { VITE_PLANT_ID_API_KEY : option string }.

(** [interface PlantIdentification]: every field optional, [None] being
    [undefined].  The runtime stores whatever the service sent. *)
Record PlantIdentification : Type := {
  common_names : value;
  scientific_name : value;
  probability : value;
  wiki_description : value;
  taxonomy : value
}.

(** The argument of [toast]; [variant] is absent for the default look. *)
Record Toast : Type := {
  title : string;
  description : string;
  variant : option string
}.

(** ** Asynchronous computations *)

Module Async.

(** What a handler does to the component and to its collaborators. *)
Inductive effect : Type :=
| SetIsScanning (b : bool)
| SetImagePreview (p : option string)
| SetResult (r : option PlantIdentification)
| ResetFileInput
| ShowToast (t : Toast)
| ConsoleError (label : string) (e : thrown).

(** The operations a computation waits for.  A [FileReader] answers at
    [loadend] with its [result], [null] after a read error; [fetch] and
    [response.json()] are promises. *)
Inductive op : Type :=
| ReadAsDataURL (f : File)
| Fetch (url : string) (init : RequestInit)
| ResponseJson (r : Response).

Inductive settled (A : Type) : Type :=
| Fulfilled (a : A)
| Rejected (e : thrown).
Arguments Fulfilled {A} a.
Arguments Rejected {A} e.

Definition answer (o : op) : Type :=
  match o with
  | ReadAsDataURL _ => option string
  | Fetch _ _ => settled Response
  | ResponseJson _ => settled json
  end.

(** A computation runs effects until it returns, throws, leaves the model,
    or waits for an operation.  [Fork] registers a callback that runs on its
    own, outside any enclosing [try]. *)
Inductive async (A : Type) : Type :=
| Ret (a : A)
| Throw (e : thrown)
| Stuck
| Do (eff : effect) (k : async A)
| Fork (child : async unit) (k : async A)
| Await (o : op) (k : answer o -> async A).
Arguments Ret {A} a.
Arguments Throw {A} e.
Arguments Stuck {A}.
Arguments Do {A} eff k.
Arguments Fork {A} child k.
Arguments Await {A} o k.

Fixpoint bind {A B : Type} (t : async A) (f : A -> async B) : async B :=
  match t with
  | Ret a => f a
  | Throw e => Throw e
  | Stuck => Stuck
  | Do eff k => Do eff (bind k f)
  | Fork child k => Fork child (bind k f)
  | Await o k => Await o (fun a => bind (k a) f)
  end.

#[export] Instance async_ret : MRet async := fun A a => Ret a.
#[export] Instance async_bind : MBind async := fun A B f t => bind t f.

(** [try { t } catch (e) { h e }]. *)
Fixpoint try_catch {A : Type} (t : async A) (h : thrown -> async A) : async A :=
  match t with
  | Ret a => Ret a
  | Throw e => h e
  | Stuck => Stuck
  | Do eff k => Do eff (try_catch k h)
  | Fork child k => Fork child (try_catch k h)
  | Await o k => Await o (fun a => try_catch (k a) h)
  end.

(** [try { t } finally { f }]: [f] runs on both exits and the exit of [t]
    is resumed after it. *)
Fixpoint try_finally {A : Type} (t : async A) (f : async unit) : async A :=
  match t with
  | Ret a => bind f (fun _ => Ret a)
  | Throw e => bind f (fun _ => Throw e)
  | Stuck => Stuck
  | Do eff k => Do eff (try_finally k f)
  | Fork child k => Fork child (try_finally k f)
  | Await o k => Await o (fun a => try_finally (k a) f)
  end.

Definition perform (eff : effect) : async unit := Do eff (Ret tt).

(** An expression evaluated inside a computation. *)
Definition lift {A : Type} (e : eval A) : async A :=
  match e with
  | Val a => Ret a
  | Exc x => Throw x
  | Unmodelled => Stuck
  end.

(** [await] of a promise: its value, or its rejection thrown. *)
Definition of_settled {A : Type} (s : settled A) : async A :=
  match s with
  | Fulfilled a => Ret a
  | Rejected e => Throw e
  end.

Definition fetch (url : string) (init : RequestInit) : async Response :=
  Await (Fetch url init) of_settled.

Definition response_json (r : Response) : async json :=
  Await (ResponseJson r) of_settled.

End Async.
Import Async.

(** ** The component *)

(** The three [useState] cells and the [value] of the input behind
    [fileInputRef] ([None] while the ref is not attached). *)
Record component : Type := {
  isScanning : bool;
  imagePreview : option string;
  result : option PlantIdentification;
  fileInput : option string
}.

(** A computation parked at an operation, with what it does on the answer. *)
Inductive suspended : Type :=
| Susp (o : op) (k : answer o -> async unit).

(** The component together with everything it has said to its
    collaborators and everything still in flight. *)
Record session : Type := {
  ui : component;
  toasts : list Toast;
  console : list (string * thrown);
  network : list (string * RequestInit);
  unhandled : list thrown;
  beyond : bool;
  pending : gmap nat suspended;
  next_id : nat
}.

Definition initial : session := {|
  ui := {| isScanning := false; imagePreview := None; result := None;
           fileInput := Some EmptyString |};
  toasts := []; console := []; network := []; unhandled := [];
  beyond := false; pending := ∅; next_id := 0
|}.

Definition with_ui (f : component -> component) (s : session) : session :=
  {| ui := f (ui s); toasts := toasts s; console := console s;
     network := network s; unhandled := unhandled s; beyond := beyond s;
     pending := pending s; next_id := next_id s |}.

Definition with_pending (f : gmap nat suspended -> gmap nat suspended)
    (s : session) : session :=
  {| ui := ui s; toasts := toasts s; console := console s;
     network := network s; unhandled := unhandled s; beyond := beyond s;
     pending := f (pending s); next_id := next_id s |}.

Definition apply (eff : effect) (s : session) : session :=
  match eff with
  | SetIsScanning b =>
      with_ui (fun c => {| isScanning := b; imagePreview := imagePreview c;
                           result := result c; fileInput := fileInput c |}) s
  | SetImagePreview p =>
      with_ui (fun c => {| isScanning := isScanning c; imagePreview := p;
                           result := result c; fileInput := fileInput c |}) s
  | SetResult r =>
      with_ui (fun c => {| isScanning := isScanning c; imagePreview := imagePreview c;
                           result := r; fileInput := fileInput c |}) s
  | ResetFileInput =>
      with_ui (fun c => {| isScanning := isScanning c; imagePreview := imagePreview c;
                           result := result c;
                           fileInput := match fileInput c with
                                        | Some _ => Some EmptyString
                                        | None => None
                                        end |}) s
  | ShowToast t =>
      {| ui := ui s; toasts := toasts s ++ [t]; console := console s;
         network := network s; unhandled := unhandled s; beyond := beyond s;
         pending := pending s; next_id := next_id s |}
  | ConsoleError label e =>
      {| ui := ui s; toasts := toasts s; console := console s ++ [(label, e)];
         network := network s; unhandled := unhandled s; beyond := beyond s;
         pending := pending s; next_id := next_id s |}
  end.

(** Starting an operation: a [fetch] goes out on the network; the
    computation is parked under a fresh identifier. *)
Definition park (o : op) (k : answer o -> async unit) (s : session) : session :=
  {| ui := ui s; toasts := toasts s; console := console s;
     network := match o with
                | Fetch url init => network s ++ [(url, init)]
                | _ => network s
                end;
     unhandled := unhandled s; beyond := beyond s;
     pending := <[next_id s := Susp o k]> (pending s);
     next_id := S (next_id s) |}.

Definition escape_with (e : thrown) (s : session) : session :=
  {| ui := ui s; toasts := toasts s; console := console s;
     network := network s; unhandled := unhandled s ++ [e]; beyond := beyond s;
     pending := pending s; next_id := next_id s |}.

Definition leave_model (s : session) : session :=
  {| ui := ui s; toasts := toasts s; console := console s;
     network := network s; unhandled := unhandled s; beyond := true;
     pending := pending s; next_id := next_id s |}.

(** Run a computation up to its end or its next suspension point. *)
Fixpoint run (t : async unit) (s : session) : session :=
  match t with
  | Ret _ => s
  | Throw e => escape_with e s
  | Stuck => leave_model s
  | Do eff k => run k (apply eff s)
  | Fork child k => run k (run child s)
  | Await o k => park o k s
  end.

(** *** [convertImageToBase64] *)

(** The promise is rejected by [onerror], which fires before [onloadend];
    otherwise [onloadend] resolves it with the reader's result. *)
Definition convertImageToBase64 (file : File) : async string :=
  Await (ReadAsDataURL file)
        (fun r => match r with
                  | Some dataUrl => Ret dataUrl
                  | None => Throw ProgressEvent
                  end).

(** *** [handleImageCapture] *)

Definition endpoint : string := "https://api.plant.id/v2/identify".

Definition request_json (base64Image : string) : json :=
  JObj [("images", JArr [JStr base64Image]); ("similar_images", JBool true)].

Definition request_init (env : ImportMetaEnv) (text : string) : RequestInit := {|
  method := "POST";
  headers := [("Content-Type", Some "application/json");
              ("Api-Key", VITE_PLANT_ID_API_KEY env)];
  body := text
|}.

Definition identified_toast (found : string) : Toast := {|
  title := "Plant Identified!";
  description := "Found: " +:+ found;
  variant := None
|}.

Definition no_match_toast : Toast := {|
  title := "No Match Found";
  description := "Try a clearer image or different angle.";
  variant := Some "destructive"
|}.

Definition error_toast : Toast := {|
  title := "Error";
  description := "Unable to identify this plant.";
  variant := Some "destructive"
|}.

(** The object literal passed to [setResult], its properties evaluated in
    source order. *)
Definition identification (topResult : value) : eval PlantIdentification :=
  details ← get topResult "plant_details";
  let names := or_else (opt_get details "common_names") (Some (JArr [])) in
  name ← get topResult "plant_name";
  p ← get topResult "probability";
  details1 ← get topResult "plant_details";
  let wiki := opt_get details1 "wiki_description" in
  details2 ← get topResult "plant_details";
  let taxa := opt_get details2 "taxonomy" in
  mret {| common_names := names; scientific_name := name; probability := p;
          wiki_description := wiki; taxonomy := taxa |}.

(** [data.suggestions[0]]. *)
Definition top_suggestion (data : json) : eval value :=
  suggestions ← get (Some data) "suggestions";
  first_index suggestions.

(** The text [${topResult.plant_name}] puts into the template. *)
Definition found_name (topResult : value) : eval string :=
  name ← get topResult "plant_name";
  to_string name.

(** The [try] block, cut at its three [await]s.  From the parsed body on
    everything is synchronous. *)
Definition after_data (data : json) : async unit :=
  positive ← lift (length_gt_zero (opt_get (Some data) "suggestions"));
  if (positive : bool) then
    topResult ← lift (top_suggestion data);
    record ← lift (identification topResult);
    perform (SetResult (Some record));;
    found ← lift (found_name topResult);
    perform (ShowToast (identified_toast found))
  else
    perform (ShowToast no_match_toast).

Definition after_response (response : Response) : async unit :=
  data ← response_json response;
  after_data data.

Definition after_encoding (env : ImportMetaEnv) (base64Image : string) : async unit :=
  text ← lift (JSON_stringify (request_json base64Image));
  response ← fetch endpoint (request_init env text);
  after_response response.

Definition identify (env : ImportMetaEnv) (file : File) : async unit :=
  base64Image ← convertImageToBase64 file;
  after_encoding env base64Image.

(** The [catch] block. *)
Definition report (error : thrown) : async unit :=
  perform (ConsoleError "Plant ID error:" error);;
  perform (ShowToast error_toast).

(** [try { t } catch (error) { ... } finally { setIsScanning(false) }]. *)
Definition attempt (t : async unit) : async unit :=
  try_finally (try_catch t report) (perform (SetIsScanning false)).

(** The callback of the preview reader. *)
Definition show_preview (r : option string) : async unit :=
  perform (SetImagePreview r).

(** [files] is [event.target.files], [None] when the list is [null]. *)
Definition handleImageCapture (env : ImportMetaEnv) (files : option (list File))
  : async unit :=
  match files ≫= head with
  | None => Ret tt
  | Some file =>
      perform (SetIsScanning true);;
      perform (SetResult None);;
      Fork (Await (ReadAsDataURL file) show_preview)
           (attempt (identify env file))
  end.

(** *** [handleClear] *)

Definition handleClear : async unit :=
  perform (SetImagePreview None);;
  perform (SetResult None);;
  perform ResetFileInput.

(** *** The confidence line of the result card *)

(** What a JSX child contributes to the page. *)
Inductive rendered : Type :=
| Nothing
| Text (s : string)
| Confidence (figure : string).

(** [{result.probability && (<p>Confidence: <span>{(result.probability *
    100).toFixed(1)}%</span></p>)}].  When the left operand is falsy React
    is handed that operand: it draws a number as text and skips
    [undefined], [null], booleans and the empty string. *)
Definition confidence_line (r : PlantIdentification) : eval rendered :=
  if to_boolean (probability r) then
    x ← to_number (probability r);
    figure ← of_option (toFixed1 (PrimFloat.mul x 100));
    mret (Confidence (figure +:+ "%"))
  else
    match probability r with
    | Some (JNum x) => s ← of_option (number_to_string x); mret (Text s)
    | _ => mret Nothing
    end.

(** ** The event loop *)

(** What the environment hands back for a pending operation. *)
Inductive reply : Type :=
| LoadEnd (r : option string)
| FetchSettled (o : settled Response)
| JsonSettled (o : settled json).

(** The continuation applied to a reply of the right kind. *)
Definition resume (su : suspended) (a : reply) : option (async unit) :=
  match su with
  | Susp o k =>
      match o return (answer o -> async unit) -> option (async unit) with
      | ReadAsDataURL _ => fun k =>
          match a with LoadEnd r => Some (k r) | _ => None end
      | Fetch _ _ => fun k =>
          match a with FetchSettled x => Some (k x) | _ => None end
      | ResponseJson _ => fun k =>
          match a with JsonSettled x => Some (k x) | _ => None end
      end k
  end.

Inductive event : Type :=
| Change (files : option (list File))
| ClickClear
| Deliver (id : nat) (a : reply).

Section Loop.

Variable env : ImportMetaEnv.

Definition step (s : session) (e : event) : session :=
  match e with
  | Change files => run (handleImageCapture env files) s
  | ClickClear => run handleClear s
  | Deliver id a =>
      match pending s !! id with
      | Some su =>
          match resume su a with
          | Some t => run t (with_pending (delete id) s)
          | None => s
          end
      | None => s
      end
  end.

Definition exec (events : list event) (s : session) : session :=
  fold_left step events s.

End Loop.

(** ** The suspension points of an attempt *)

(** Where a capture can be parked: the preview reader, and the attempt at
    each of its three [await]s. *)
Definition awaiting_preview (file : File) : suspended :=
  Susp (ReadAsDataURL file) show_preview.

Definition awaiting_encoding (env : ImportMetaEnv) (file : File) : suspended :=
  Susp (ReadAsDataURL file)
       (fun r => attempt (base64Image ← match r with
                                        | Some dataUrl => Ret dataUrl
                                        | None => Throw ProgressEvent
                                        end;
                          after_encoding env base64Image)).

Definition awaiting_response (env : ImportMetaEnv) (text : string) : suspended :=
  Susp (Fetch endpoint (request_init env text))
       (fun a => attempt (response ← of_settled a; after_response response)).

Definition awaiting_json (r : Response) : suspended :=
  Susp (ResponseJson r)
       (fun a => attempt (data ← of_settled a; after_data data)).

Definition park_at (su : suspended) (s : session) : session :=
  match su with Susp o k => park o k s end.

(** The text [JSON.stringify] gives for the request. *)
Definition request_text (base64Image : string) : string :=
  "{" +:+ quote "images" +:+ ":[" +:+ quote base64Image +:+ "],"
      +:+ quote "similar_images" +:+ ":true}".

(** A settlement that is a failure of the attempt parked at it. *)
Inductive failure_of (env : ImportMetaEnv) : suspended -> reply -> thrown -> Prop :=
| encoding_failed file :
    failure_of env (awaiting_encoding env file) (LoadEnd None) ProgressEvent
| transport_failed text e :
    failure_of env (awaiting_response env text) (FetchSettled (Rejected e)) e
| body_malformed r e :
    failure_of env (awaiting_json r) (JsonSettled (Rejected e)) e.

(** One of the three stages of an attempt. *)
Inductive in_attempt (env : ImportMetaEnv) : suspended -> Prop :=
| at_encoding file : in_attempt env (awaiting_encoding env file)
| at_response text : in_attempt env (awaiting_response env text)
| at_json r : in_attempt env (awaiting_json r).

(** The state the hooks start in, as far as the page shows it. *)
Definition idle (c : component) : Prop :=
  isScanning c = false /\ imagePreview c = None /\ result c = None.

(** The record [identification] builds from a first suggestion that is not
    [null], written out. *)
Definition record_of (first : json) : PlantIdentification :=
  let details := opt_get (Some first) "plant_details" in
  {| common_names := or_else (opt_get details "common_names") (Some (JArr []));
     scientific_name := opt_get (Some first) "plant_name";
     probability := opt_get (Some first) "probability";
     wiki_description := opt_get details "wiki_description";
     taxonomy := opt_get details "taxonomy" |}.

(** The suggestion list of a response is absent or empty. *)
Definition no_suggestions (data : json) : Prop :=
  opt_get (Some data) "suggestions" = None
  \/ opt_get (Some data) "suggestions" = Some JNull
  \/ opt_get (Some data) "suggestions" = Some (JArr []).

(** ** Sample inputs *)

Definition sample_env : ImportMetaEnv := {| VITE_PLANT_ID_API_KEY := Some "secret" |}.

Definition sample_file : File :=
  {| file_name := "leaf.png"; file_contents := "PNG" |}.

Definition sample_url : string := "data:image/png;base64,UE5H".

Definition sample_response : Response := {| status := 200; body_text := EmptyString |}.

Definition monstera_top : json :=
  JObj [("plant_name", JStr "Monstera deliciosa");
        ("probability", JNum 0.97);
        ("plant_details",
         JObj [("common_names", JArr [JStr "Swiss cheese plant"]);
               ("taxonomy", JObj [("family", JStr "Araceae");
                                  ("genus", JStr "Monstera")])])].

Definition monstera : json := JObj [("suggestions", JArr [monstera_top])].

(** A capture whose preview is on the page and whose request has been
    answered: the attempt is parked at [response.json()] under identifier 3. *)
Definition parsing_session : session :=
  exec sample_env
       [Change (Some [sample_file]);
        Deliver 0 (LoadEnd (Some sample_url));
        Deliver 1 (LoadEnd (Some sample_url));
        Deliver 2 (FetchSettled (Fulfilled sample_response))]
       initial.

(** The preview is on the page while the request is still out: identifier 2
    is parked at [fetch]. *)
Definition requesting_session : session :=
  exec sample_env
       [Change (Some [sample_file]);
        Deliver 0 (LoadEnd (Some sample_url));
        Deliver 1 (LoadEnd (Some sample_url))]
       initial.

Definition empty_list_response : json := JObj [("suggestions", JArr [])].

Definition zero_probability_response : json :=
  JObj [("suggestions",
         JArr [JObj [("plant_name", JStr "Monstera deliciosa");
                     ("probability", JNum 0)]])].

Definition bare_suggestion : json := JObj [("plant_name", JStr "Monstera deliciosa")].

(** ** What a delivery can do *)

(** The ways the synchronous tail of an attempt can end, from the session
    [s] it starts in: a record stored and the success toast; no match; an
    exception caught before or after the record was stored; a coercion
    outside the model, before or after the record was stored. *)
Inductive tail_of (s : session) : session -> Prop :=
| tail_identified (record : PlantIdentification) (found : string) :
    tail_of s (apply (SetIsScanning false)
                 (apply (ShowToast (identified_toast found))
                    (apply (SetResult (Some record)) s)))
| tail_no_match :
    tail_of s (apply (SetIsScanning false) (apply (ShowToast no_match_toast) s))
| tail_failed (e : thrown) :
    tail_of s (apply (SetIsScanning false)
                 (apply (ShowToast error_toast)
                    (apply (ConsoleError "Plant ID error:" e) s)))
| tail_failed_stored (record : PlantIdentification) (e : thrown) :
    tail_of s (apply (SetIsScanning false)
                 (apply (ShowToast error_toast)
                    (apply (ConsoleError "Plant ID error:" e)
                       (apply (SetResult (Some record)) s))))
| tail_unmodelled :
    tail_of s (leave_model s)
| tail_unmodelled_stored (record : PlantIdentification) :
    tail_of s (leave_model (apply (SetResult (Some record)) s)).

(** What delivering a reply to identifier [id] makes of a session whose
    parked computations all come from [handleImageCapture]. *)
Inductive delivery (env : ImportMetaEnv) (s : session) (id : nat) : session -> Prop :=
| delivery_ignored :
    delivery env s id s
| delivery_preview (file : File) (r : option string) :
    pending s !! id = Some (awaiting_preview file) ->
    delivery env s id (apply (SetImagePreview r) (with_pending (delete id) s))
| delivery_request (base64Image : string) :
    delivery env s id
      (park_at (awaiting_response env (request_text base64Image))
               (with_pending (delete id) s))
| delivery_parse (r : Response) :
    delivery env s id (park_at (awaiting_json r) (with_pending (delete id) s))
| delivery_end (s' : session) :
    tail_of (with_pending (delete id) s) s' ->
    delivery env s id s'.

Definition parked_by_handler (env : ImportMetaEnv) (su : suspended) : Prop :=
  (exists file : File, su = awaiting_preview file) \/ in_attempt env su.

(** The request of section 6 of the specification, for some encoded
    image. *)
Definition documented_request (env : ImportMetaEnv) (req : string * RequestInit) : Prop :=
  exists base64Image : string,
    fst req = "https://api.plant.id/v2/identify"
    /\ method (snd req) = "POST"
    /\ headers (snd req) = [("Content-Type", Some "application/json");
                            ("Api-Key", VITE_PLANT_ID_API_KEY env)]
    /\ JSON_stringify (JObj [("images", JArr [JStr base64Image]);
                             ("similar_images", JBool true)])
       = Val (body (snd req)).

(** Every parked computation comes from the handler and every request on
    the network is the documented one. *)
Record consistent (env : ImportMetaEnv) (s : session) : Prop := {
  flights : forall (id : nat) (su : suspended),
    pending s !! id = Some su -> parked_by_handler env su;
  requests : Forall (documented_request env) (network s)
}.

(** Tells the preview reader from the encoding reader by the first effect
    of its callback after a failed read. *)
Definition answers_with_preview (su : suspended) : bool :=
  match su with
  | Susp o k =>
      match o return (answer o -> async unit) -> bool with
      | ReadAsDataURL _ => fun k =>
          match k None with
          | Do (SetImagePreview _) _ => true
          | _ => false
          end
      | _ => fun _ => false
      end k
  end.


(** ** The rest of the page *)

(** *** The blocks of the result card *)

(** What [cond && <element>] hands to React: the element, or the falsy
    [cond] itself, of which React draws a number as text and nothing
    else. *)
Inductive block (A : Type) : Type :=
| Absent
| Bare (s : string)
| Shown (a : A).
Arguments Absent {A}.
Arguments Bare {A} s.
Arguments Shown {A} a.

Definition falsy_child {A : Type} (v : value) : eval (block A) :=
  match v with
  | Some (JNum x) => s ← of_option (number_to_string x); mret (Bare s)
  | _ => mret Absent
  end.

(** The texts [join] glues together: nothing for [null], [ToString] of
    every other element. *)
Fixpoint texts (elems : list json) : eval (list string) :=
  match elems with
  | [] => Val []
  | x :: rest =>
      a ← match x with JNull => Val EmptyString | _ => to_string (Some x) end;
      b ← texts rest;
      mret (a :: b)
  end.

(** [v.join(", ")].  Only an array has a callable [join]; calling what a
    string, a number, a boolean or a parsed object has under that name is a
    [TypeError]. *)
Definition join_names (v : value) : eval string :=
  match v with
  | Some (JArr elems) => parts ← texts elems; mret (String.concat ", " parts)
  | _ => Exc TypeError
  end.

(** [{result.common_names?.length > 0 && (<p>Common names:
    {result.common_names.join(", ")}</p>)}]; the comparison is a boolean, so
    nothing is drawn when it fails. *)
Definition names_line (r : PlantIdentification) : eval (block string) :=
  positive ← length_gt_zero (common_names r);
  if (positive : bool) then
    joined ← join_names (common_names r);
    mret (Shown joined)
  else
    mret Absent.

(** [{result.taxonomy && (<div> ... {result.taxonomy.family} ...
    {result.taxonomy.genus} ... </div>)}]: the two values handed to React. *)
Definition taxonomy_block (r : PlantIdentification) : eval (block (value * value)) :=
  if to_boolean (taxonomy r) then
    family ← get (taxonomy r) "family";
    genus ← get (taxonomy r) "genus";
    mret (Shown (family, genus))
  else
    falsy_child (taxonomy r).

(** [{result.wiki_description?.value && (<div> ...
    {result.wiki_description.value} ... </div>)}]. *)
Definition description_block (r : PlantIdentification) : eval (block value) :=
  if to_boolean (opt_get (wiki_description r) "value") then
    text ← get (wiki_description r) "value";
    mret (Shown text)
  else
    falsy_child (opt_get (wiki_description r) "value").

(** The card, its children in source order; [heading] is
    [{result.scientific_name}] as handed to React. *)
Record card : Type := {
  heading : value;
  names : block string;
  confidence : rendered;
  family_genus : block (value * value);
  about : block value
}.

Definition result_card (r : PlantIdentification) : eval card :=
  n ← names_line r;
  c ← confidence_line r;
  t ← taxonomy_block r;
  d ← description_block r;
  mret {| heading := scientific_name r; names := n; confidence := c;
          family_genus := t; about := d |}.

(** *** The controls *)

(** What the component returns, as far as its state decides it: the
    trigger is [disabled={isScanning}]; the preview image and the clear
    button sit under [{imagePreview && ...}], which an empty string fails;
    the "Identifying plant..." banner under [{isScanning && ...}]; the card
    under [{result && ...}]. *)
Record page : Type := {
  trigger_disabled : bool;
  preview_image : option string;
  clear_button : bool;
  identifying : bool;
  shown_card : option (eval card)
}.

Definition truthy_string (o : option string) : option string :=
  match o with
  | Some EmptyString | None => None
  | Some s => Some s
  end.

Definition render (c : component) : page := {|
  trigger_disabled := isScanning c;
  preview_image := truthy_string (imagePreview c);
  clear_button := match truthy_string (imagePreview c) with
                  | Some _ => true
                  | None => false
                  end;
  identifying := isScanning c;
  shown_card := option_map result_card (result c)
|}.

(** *** What the page lets the user do *)

(** Picking a file goes through the trigger, which is disabled while
    scanning; clearing goes through the button on the preview; the
    environment may answer at any time. *)
Definition offered (c : component) (e : event) : bool :=
  match e with
  | Change (Some (_ :: _)) => negb (trigger_disabled (render c))
  | Change _ => true
  | ClickClear => clear_button (render c)
  | Deliver _ _ => true
  end.

(** A run in which every event is one the page offers at that moment. *)
Fixpoint offered_run (env : ImportMetaEnv) (events : list event) (s : session) : bool :=
  match events with
  | [] => true
  | e :: rest => offered (ui s) e && offered_run env rest (step env s e)
  end.

(** At most one attempt is in flight. *)
Definition single_flight (env : ImportMetaEnv) (s : session) : Prop :=
  forall (id1 id2 : nat) (su1 su2 : suspended),
    pending s !! id1 = Some su1 -> in_attempt env su1 ->
    pending s !! id2 = Some su2 -> in_attempt env su2 ->
    id1 = id2.

(** Some attempt is in flight. *)
Definition in_flight (env : ImportMetaEnv) (s : session) : Prop :=
  exists (id : nat) (su : suspended), pending s !! id = Some su /\ in_attempt env su.

(** What holds along the runs the page offers: one attempt at most, the
    flag on while it flies, and no result on the page meanwhile. *)
Record orderly (env : ImportMetaEnv) (s : session) : Prop := {
  orderly_consistent : consistent env s;
  orderly_single : single_flight env s;
  orderly_flag : in_flight env s -> isScanning (ui s) = true;
  orderly_result : in_flight env s -> result (ui s) = None
}.

(** A toast the handler can show. *)
Definition handler_toast (t : Toast) : Prop :=
  (exists found : string, t = identified_toast found)
  \/ t = no_match_toast
  \/ t = error_toast.

(** The events behind [parsing_session]: each one is offered by the page
    when it happens. *)
Definition sample_events : list event :=
  [Change (Some [sample_file]);
   Deliver 0 (LoadEnd (Some sample_url));
   Deliver 1 (LoadEnd (Some sample_url));
   Deliver 2 (FetchSettled (Fulfilled sample_response))].

(** A first attempt has ended with a result and its preview is on the
    page; a second capture has just started: its preview read is parked
    under identifier 4 and its encoding under 5. *)
Definition second_capture_session : session :=
  exec sample_env
       (sample_events ++ [Deliver 3 (JsonSettled (Fulfilled monstera));
                          Change (Some [sample_file])])
       initial.

(** A suggestion with every field the card draws. *)
Definition described_monstera : json :=
  JObj [("plant_name", JStr "Monstera deliciosa");
        ("probability", JNum 0.97);
        ("plant_details",
         JObj [("common_names", JArr [JStr "Swiss cheese plant"; JStr "Split-leaf philodendron"]);
               ("wiki_description", JObj [("value", JStr "A species of flowering plant.")]);
               ("taxonomy", JObj [("family", JStr "Araceae");
                                  ("genus", JStr "Monstera")])])].

(** A suggestion whose common names came as one string. *)
Definition misnamed_suggestion : json :=
  JObj [("plant_name", JStr "Monstera deliciosa");
        ("plant_details", JObj [("common_names", JStr "Swiss cheese plant")])].

(** * Properties *)

(** ** Running the pieces of the handler *)

Lemma append_assoc (a b c : string) : (a +:+ b) +:+ c = a +:+ (b +:+ c).
Proof.
  induction a as [|x a IH]; [reflexivity|].
  change (String x ((a +:+ b) +:+ c) = String x (a +:+ (b +:+ c))).
  now rewrite IH.
Qed.

Lemma stringify_request (base64Image : string) :
  JSON_stringify (request_json base64Image) = Val (request_text base64Image).
Proof.
  unfold request_text, request_json.
  cbn -[quote String.append].
  rewrite !append_assoc. reflexivity.
Qed.

Lemma capture_parks (env : ImportMetaEnv) (file : File) (rest : list File) (s : session) :
  run (handleImageCapture env (Some (file :: rest))) s
  = park_at (awaiting_encoding env file)
      (park_at (awaiting_preview file)
         (apply (SetResult None) (apply (SetIsScanning true) s))).
Proof. reflexivity. Qed.

Lemma capture_without_file (env : ImportMetaEnv) (files : option (list File)) (s : session) :
  files ≫= head = None -> run (handleImageCapture env files) s = s.
Proof. intros H. unfold handleImageCapture. rewrite H. reflexivity. Qed.

Lemma encoded_parks (env : ImportMetaEnv) (base64Image : string) (s : session) :
  run (attempt (after_encoding env base64Image)) s
  = park_at (awaiting_response env (request_text base64Image)) s.
Proof. unfold after_encoding. rewrite stringify_request. reflexivity. Qed.

Lemma responded_parks (r : Response) (s : session) :
  run (attempt (after_response r)) s = park_at (awaiting_json r) s.
Proof. reflexivity. Qed.

Lemma failed_run (e : thrown) (s : session) :
  run (attempt (Throw e)) s
  = apply (SetIsScanning false)
      (apply (ShowToast error_toast) (apply (ConsoleError "Plant ID error:" e) s)).
Proof. reflexivity. Qed.

Lemma deliver_parked (env : ImportMetaEnv) (s : session) (id : nat)
    (su : suspended) (a : reply) (t : async unit) :
  pending s !! id = Some su ->
  resume su a = Some t ->
  step env s (Deliver id a) = run t (with_pending (delete id) s).
Proof. intros Hp Hr. cbn. rewrite Hp, Hr. reflexivity. Qed.

Lemma deliver_mismatch (env : ImportMetaEnv) (s : session) (id : nat)
    (su : suspended) (a : reply) :
  pending s !! id = Some su ->
  resume su a = None ->
  step env s (Deliver id a) = s.
Proof. intros Hp Hr. cbn. rewrite Hp, Hr. reflexivity. Qed.

Lemma deliver_unknown (env : ImportMetaEnv) (s : session) (id : nat) (a : reply) :
  pending s !! id = None -> step env s (Deliver id a) = s.
Proof. intros Hp. cbn. rewrite Hp. reflexivity. Qed.

(** ** Normalisation *)

Lemma get_of_opt_get (data : json) (key : string) (v : json) :
  opt_get (Some data) key = Some v -> get (Some data) key = Val (Some v).
Proof. destruct data; cbn; intros H; try discriminate. now rewrite H. Qed.

Lemma get_not_null (first : json) (key : string) :
  first <> JNull -> get (Some first) key = Val (opt_get (Some first) key).
Proof. destruct first; intros H; try reflexivity. now destruct H. Qed.

Lemma identification_total (first : json) :
  first <> JNull -> identification (Some first) = Val (record_of first).
Proof.
  intros H. unfold identification.
  rewrite !(get_not_null first _ H). reflexivity.
Qed.

Lemma identification_null : identification (Some JNull) = Exc TypeError.
Proof. reflexivity. Qed.

Lemma no_suggestions_not_positive (data : json) :
  no_suggestions data ->
  length_gt_zero (opt_get (Some data) "suggestions") = Val false.
Proof. intros [H | [H | H]]; rewrite H; reflexivity. Qed.

(** ** The synchronous tail of an attempt *)

Lemma no_match_run (data : json) (s : session) :
  length_gt_zero (opt_get (Some data) "suggestions") = Val false ->
  run (attempt (after_data data)) s
  = apply (SetIsScanning false) (apply (ShowToast no_match_toast) s).
Proof. intros H. unfold after_data. rewrite H. reflexivity. Qed.

Lemma identified_run (data : json) (top : value) (record : PlantIdentification)
    (found : string) (s : session) :
  length_gt_zero (opt_get (Some data) "suggestions") = Val true ->
  top_suggestion data = Val top ->
  identification top = Val record ->
  found_name top = Val found ->
  run (attempt (after_data data)) s
  = apply (SetIsScanning false)
      (apply (ShowToast (identified_toast found))
         (apply (SetResult (Some record)) s)).
Proof.
  intros H1 H2 H3 H4. unfold after_data.
  rewrite H1. cbn [lift mbind async_bind bind]. rewrite H2.
  cbn [lift mbind async_bind bind]. rewrite H3.
  cbn [lift mbind async_bind bind perform]. rewrite H4. reflexivity.
Qed.


Lemma top_of_list (data first : json) (rest : list json) :
  opt_get (Some data) "suggestions" = Some (JArr (first :: rest)) ->
  length_gt_zero (opt_get (Some data) "suggestions") = Val true
  /\ top_suggestion data = Val (Some first).
Proof.
  intros H. split.
  - rewrite H. reflexivity.
  - unfold top_suggestion. rewrite (get_of_opt_get _ _ _ H). reflexivity.
Qed.

Lemma json_resumes (r : Response) (o : settled json) :
  resume (awaiting_json r) (JsonSettled o)
  = Some (attempt (data ← of_settled o; after_data data)).
Proof. reflexivity. Qed.

Lemma data_delivered (env : ImportMetaEnv) (s : session) (id : nat)
    (r : Response) (data : json) :
  pending s !! id = Some (awaiting_json r) ->
  step env s (Deliver id (JsonSettled (Fulfilled data)))
  = run (attempt (after_data data)) (with_pending (delete id) s).
Proof. intros H. now rewrite (deliver_parked env s id _ _ _ H (json_resumes r _)). Qed.

(** ** The attempt between its awaits *)

Lemma encoding_delivered (env : ImportMetaEnv) (s : session) (id : nat)
    (file : File) (base64Image : string) :
  pending s !! id = Some (awaiting_encoding env file) ->
  step env s (Deliver id (LoadEnd (Some base64Image)))
  = park_at (awaiting_response env (request_text base64Image))
            (with_pending (delete id) s).
Proof.
  intros H.
  rewrite (deliver_parked env s id _ _ (attempt (after_encoding env base64Image)) H)
    by reflexivity.
  apply encoded_parks.
Qed.

Lemma response_delivered (env : ImportMetaEnv) (s : session) (id : nat)
    (text : string) (r : Response) :
  pending s !! id = Some (awaiting_response env text) ->
  step env s (Deliver id (FetchSettled (Fulfilled r)))
  = park_at (awaiting_json r) (with_pending (delete id) s).
Proof.
  intros H.
  rewrite (deliver_parked env s id _ _ (attempt (after_response r)) H) by reflexivity.
  apply responded_parks.
Qed.

Lemma preview_delivered (env : ImportMetaEnv) (s : session) (id : nat)
    (file : File) (r : option string) :
  pending s !! id = Some (awaiting_preview file) ->
  step env s (Deliver id (LoadEnd r))
  = apply (SetImagePreview r) (with_pending (delete id) s).
Proof.
  intros H.
  now rewrite (deliver_parked env s id _ _ (show_preview r) H) by reflexivity.
Qed.

Lemma failure_resumes (env : ImportMetaEnv) (su : suspended) (a : reply) (e : thrown) :
  failure_of env su a e -> resume su a = Some (attempt (Throw e)).
Proof. intros []; reflexivity. Qed.

Lemma failure_delivered (env : ImportMetaEnv) (s : session) (id : nat)
    (su : suspended) (a : reply) (e : thrown) :
  pending s !! id = Some su ->
  failure_of env su a e ->
  step env s (Deliver id a)
  = apply (SetIsScanning false)
      (apply (ShowToast error_toast)
         (apply (ConsoleError "Plant ID error:" e) (with_pending (delete id) s))).
Proof.
  intros Hp Hf.
  rewrite (deliver_parked env s id su a _ Hp (failure_resumes env su a e Hf)).
  apply failed_run.
Qed.

Lemma clear_run (s : session) :
  run handleClear s
  = apply ResetFileInput (apply (SetResult None) (apply (SetImagePreview None) s)).
Proof. reflexivity. Qed.

(** Clearing always empties the preview and the result, touches nothing
    else on the page, and cannot fail. *)
Lemma clear_always (env : ImportMetaEnv) (s : session) :
  let s' := step env s ClickClear in
  imagePreview (ui s') = None
  /\ result (ui s') = None
  /\ isScanning (ui s') = isScanning (ui s)
  /\ toasts s' = toasts s
  /\ unhandled s' = unhandled s
  /\ beyond s' = beyond s
  /\ pending s' = pending s.
Proof. repeat split. Qed.

(** ** How the tail of an attempt ends *)

Lemma tail_cases (data : json) (s : session) :
  tail_of s (run (attempt (after_data data)) s).
Proof.
  unfold after_data.
  destruct (length_gt_zero (opt_get (Some data) "suggestions")) as [[|]|e|];
    cbn [lift mbind async_bind bind];
    [ | apply tail_no_match | apply tail_failed | apply tail_unmodelled ].
  destruct (top_suggestion data) as [top|e|]; cbn [lift mbind async_bind bind];
    [ | apply tail_failed | apply tail_unmodelled ].
  destruct (identification top) as [record|e|]; cbn [lift mbind async_bind bind perform];
    [ | apply tail_failed | apply tail_unmodelled ].
  destruct (found_name top) as [found|e|].
  - apply tail_identified.
  - apply tail_failed_stored.
  - apply tail_unmodelled_stored.
Qed.

Lemma tail_keeps_flight (s s' : session) :
  tail_of s s' ->
  pending s' = pending s /\ network s' = network s /\ next_id s' = next_id s.
Proof. intros []; repeat split. Qed.


Lemma tail_never_escapes (s s' : session) :
  tail_of s s' -> unhandled s' = unhandled s.
Proof. intros []; reflexivity. Qed.

(** ** Deliveries, case by case *)

Lemma capture_with_file (env : ImportMetaEnv) (files : option (list File))
    (file : File) (s : session) :
  files ≫= head = Some file ->
  run (handleImageCapture env files) s
  = park_at (awaiting_encoding env file)
      (park_at (awaiting_preview file)
         (apply (SetResult None) (apply (SetIsScanning true) s))).
Proof. intros H. unfold handleImageCapture. rewrite H. reflexivity. Qed.

Ltac ignored Hp :=
  rewrite (deliver_mismatch _ _ _ _ _ Hp) by reflexivity; apply delivery_ignored.

Lemma deliver_cases (env : ImportMetaEnv) (s : session) (id : nat)
    (su : suspended) (a : reply) :
  pending s !! id = Some su ->
  parked_by_handler env su ->
  delivery env s id (step env s (Deliver id a)).
Proof.
  intros Hp [[file ->] | Hin].
  - destruct a as [r | o | o].
    + rewrite (preview_delivered env s id file r Hp).
      now apply delivery_preview with (file := file).
    + ignored Hp.
    + ignored Hp.
  - destruct Hin as [file | text | r].
    + destruct a as [[base64Image|] | o | o].
      * rewrite (encoding_delivered env s id file base64Image Hp).
        apply delivery_request.
      * rewrite (failure_delivered env s id _ _ _ Hp (encoding_failed env file)).
        apply delivery_end, tail_failed.
      * ignored Hp.
      * ignored Hp.
    + destruct a as [x | [r | e] | o].
      * ignored Hp.
      * rewrite (response_delivered env s id text r Hp). apply delivery_parse.
      * rewrite (failure_delivered env s id _ _ _ Hp (transport_failed env text e)).
        apply delivery_end, tail_failed.
      * ignored Hp.
    + destruct a as [x | o | [data | e]].
      * ignored Hp.
      * ignored Hp.
      * rewrite (data_delivered env s id r data Hp).
        apply delivery_end, tail_cases.
      * rewrite (failure_delivered env s id _ _ _ Hp (body_malformed env r e)).
        apply delivery_end, tail_failed.
Qed.

(** ** Every session the loop reaches is consistent *)

Section Reachable.

Variable env : ImportMetaEnv.

Lemma exec_invariant (P : session -> Prop) :
  (forall (s : session) (e : event), P s -> P (step env s e)) ->
  forall (events : list event) (s : session), P s -> P (exec env events s).
Proof.
  intros Hstep events. induction events as [|e events IH]; intros s Hs.
  - exact Hs.
  - apply IH, Hstep, Hs.
Qed.

Lemma documented_request_sent (base64Image : string) :
  documented_request env (endpoint, request_init env (request_text base64Image)).
Proof.
  exists base64Image. repeat split. apply (stringify_request base64Image).
Qed.

Lemma consistent_initial : consistent env initial.
Proof.
  split.
  - intros id su H. change (pending initial) with (∅ : gmap nat suspended) in H.
    now rewrite lookup_empty in H.
  - constructor.
Qed.

Lemma flights_after_delete (s : session) (id : nat) :
  consistent env s ->
  forall (id' : nat) (su : suspended),
    delete id (pending s) !! id' = Some su -> parked_by_handler env su.
Proof.
  intros Hc id' su H. apply lookup_delete_Some in H as [_ H].
  exact (flights env s Hc id' su H).
Qed.

Lemma consistent_step (s : session) (e : event) :
  consistent env s -> consistent env (step env s e).
Proof.
  intros Hc. destruct e as [files | | id a].
  - cbn [step]. destruct (files ≫= head) as [file|] eqn:Hf.
    + rewrite (capture_with_file env files file s Hf). split.
      * intros id su H. cbn in H.
        apply lookup_insert_Some in H as [[_ <-] | [_ H]];
          [right; apply at_encoding|].
        apply lookup_insert_Some in H as [[_ <-] | [_ H]];
          [left; now exists file|].
        exact (flights env s Hc id su H).
      * exact (requests env s Hc).
    + rewrite (capture_without_file env files s Hf). exact Hc.
  - split; [exact (flights env s Hc) | exact (requests env s Hc)].
  - destruct (pending s !! id) as [su|] eqn:Hp;
      [|now rewrite (deliver_unknown env s id a Hp)].
    destruct (deliver_cases env s id su a Hp (flights env s Hc id su Hp))
      as [ | file r _ | base64Image | r | s' Ht ].
    + exact Hc.
    + split; [exact (flights_after_delete s id Hc) | exact (requests env s Hc)].
    + split.
      * intros id' su' H. cbn in H.
        apply lookup_insert_Some in H as [[_ <-] | [_ H]];
          [right; apply at_response|].
        exact (flights_after_delete s id Hc id' su' H).
      * cbn. apply Forall_app. split; [exact (requests env s Hc)|].
        constructor; [apply documented_request_sent | constructor].
    + split.
      * intros id' su' H. cbn in H.
        apply lookup_insert_Some in H as [[_ <-] | [_ H]];
          [right; apply at_json|].
        exact (flights_after_delete s id Hc id' su' H).
      * exact (requests env s Hc).
    + destruct (tail_keeps_flight _ _ Ht) as (Hpend & Hnet & _). split.
      * intros id' su' H. rewrite Hpend in H.
        exact (flights_after_delete s id Hc id' su' H).
      * rewrite Hnet. exact (requests env s Hc).
Qed.

Lemma consistent_reachable (events : list event) :
  consistent env (exec env events initial).
Proof. apply exec_invariant; [exact consistent_step | exact consistent_initial]. Qed.

End Reachable.

(** ** The scanning flag *)

Lemma attempt_is_no_preview (env : ImportMetaEnv) (su : suspended) :
  in_attempt env su -> answers_with_preview su = false.
Proof. intros []; reflexivity. Qed.

Lemma preview_is_no_attempt (env : ImportMetaEnv) (file : File) :
  ~ in_attempt env (awaiting_preview file).
Proof.
  intros H. apply attempt_is_no_preview in H. discriminate H.
Qed.

Section Flag.

Variable env : ImportMetaEnv.



End Flag.

(** ** Nothing escapes *)

Section Escapes.

Variable env : ImportMetaEnv.

Lemma unhandled_step (s : session) (e : event) :
  consistent env s -> unhandled (step env s e) = unhandled s.
Proof.
  intros Hc. destruct e as [files | | id a].
  - cbn [step]. destruct (files ≫= head) as [file|] eqn:Hfile.
    + now rewrite (capture_with_file env files file s Hfile).
    + now rewrite (capture_without_file env files s Hfile).
  - reflexivity.
  - destruct (pending s !! id) as [su|] eqn:Hp;
      [|now rewrite (deliver_unknown env s id a Hp)].
    destruct (deliver_cases env s id su a Hp (flights env s Hc id su Hp))
      as [ | file r _ | base64Image | r | s' Ht ]; try reflexivity.
    exact (tail_never_escapes _ _ Ht).
Qed.

(** Whatever the environment answers and whenever the user acts, no
    exception leaves a handler uncaught. *)
Lemma nothing_escapes (events : list event) :
  unhandled (exec env events initial) = [].
Proof.
  assert (H : consistent env (exec env events initial)
              /\ unhandled (exec env events initial) = []).
  { apply (exec_invariant env (fun s => consistent env s /\ unhandled s = [])).
    - intros s e [Hc Hu]. split; [now apply consistent_step|].
      now rewrite (unhandled_step s e Hc).
    - split; [apply consistent_initial | reflexivity]. }
  exact (proj2 H).
Qed.

End Escapes.

(** ** One attempt from capture to parsing *)

(** From any session, a capture whose encoding and request succeed is
    parked at [response.json()] with no result, the flag on, no toast
    shown yet and exactly its own request sent. *)
Lemma lone_attempt_reaches_parsing (env : ImportMetaEnv) (s0 : session)
    (file : File) (rest : list File) (base64Image : string) (r : Response) :
  let n := next_id s0 in
  let s := exec env [Change (Some (file :: rest));
                     Deliver (S n) (LoadEnd (Some base64Image));
                     Deliver (S (S n)) (FetchSettled (Fulfilled r))] s0 in
  pending s !! S (S (S n)) = Some (awaiting_json r)
  /\ result (ui s) = None
  /\ isScanning (ui s) = true
  /\ toasts s = toasts s0
  /\ unhandled s = unhandled s0
  /\ network s = network s0 ++ [(endpoint, request_init env (request_text base64Image))].
Proof.
  cbv zeta. unfold exec. cbn [fold_left].
  change (step env s0 (Change (Some (file :: rest))))
    with (run (handleImageCapture env (Some (file :: rest))) s0).
  rewrite capture_parks.
  rewrite (encoding_delivered env _ (S (next_id s0)) file base64Image)
    by apply lookup_insert_eq.
  rewrite (response_delivered env _ (S (S (next_id s0))) (request_text base64Image) r)
    by apply lookup_insert_eq.
  repeat split. apply lookup_insert_eq.
Qed.

(** Such an attempt, answered with no suggestions, ends with no result and
    one toast, the no-match one. *)
Lemma lone_attempt_without_match (env : ImportMetaEnv) (s0 : session)
    (file : File) (rest : list File) (base64Image : string) (r : Response)
    (data : json) :
  no_suggestions data ->
  let n := next_id s0 in
  let s := exec env [Change (Some (file :: rest));
                     Deliver (S n) (LoadEnd (Some base64Image));
                     Deliver (S (S n)) (FetchSettled (Fulfilled r));
                     Deliver (S (S (S n))) (JsonSettled (Fulfilled data))] s0 in
  result (ui s) = None
  /\ toasts s = toasts s0 ++ [no_match_toast]
  /\ isScanning (ui s) = false.
Proof.
  intros Hn. cbv zeta.
  destruct (lone_attempt_reaches_parsing env s0 file rest base64Image r)
    as (Hp & Hres & _ & Htoasts & _).
  cbv zeta in Hp, Hres, Htoasts.
  change (exec env [Change (Some (file :: rest));
                    Deliver (S (next_id s0)) (LoadEnd (Some base64Image));
                    Deliver (S (S (next_id s0))) (FetchSettled (Fulfilled r));
                    Deliver (S (S (S (next_id s0)))) (JsonSettled (Fulfilled data))] s0)
    with (step env
            (exec env [Change (Some (file :: rest));
                       Deliver (S (next_id s0)) (LoadEnd (Some base64Image));
                       Deliver (S (S (next_id s0))) (FetchSettled (Fulfilled r))] s0)
            (Deliver (S (S (S (next_id s0)))) (JsonSettled (Fulfilled data)))).
  rewrite (data_delivered env _ _ r data Hp).
  rewrite (no_match_run data _ (no_suggestions_not_positive data Hn)).
  cbn [apply with_ui with_pending ui toasts result isScanning].
  rewrite Hres, Htoasts. repeat split.
Qed.

(** Such an attempt, whose body does not parse, ends with no result and one
    toast, the error one. *)
Lemma lone_attempt_with_rejected_body (env : ImportMetaEnv) (s0 : session)
    (file : File) (rest : list File) (base64Image : string) (r : Response)
    (e : thrown) :
  let n := next_id s0 in
  let s := exec env [Change (Some (file :: rest));
                     Deliver (S n) (LoadEnd (Some base64Image));
                     Deliver (S (S n)) (FetchSettled (Fulfilled r));
                     Deliver (S (S (S n))) (JsonSettled (Rejected e))] s0 in
  result (ui s) = None
  /\ toasts s = toasts s0 ++ [error_toast]
  /\ isScanning (ui s) = false
  /\ unhandled s = unhandled s0.
Proof.
  cbv zeta.
  destruct (lone_attempt_reaches_parsing env s0 file rest base64Image r)
    as (Hp & Hres & _ & Htoasts & Hun & _).
  cbv zeta in Hp, Hres, Htoasts, Hun.
  change (exec env [Change (Some (file :: rest));
                    Deliver (S (next_id s0)) (LoadEnd (Some base64Image));
                    Deliver (S (S (next_id s0))) (FetchSettled (Fulfilled r));
                    Deliver (S (S (S (next_id s0)))) (JsonSettled (Rejected e))] s0)
    with (step env
            (exec env [Change (Some (file :: rest));
                       Deliver (S (next_id s0)) (LoadEnd (Some base64Image));
                       Deliver (S (S (next_id s0))) (FetchSettled (Fulfilled r))] s0)
            (Deliver (S (S (S (next_id s0)))) (JsonSettled (Rejected e)))).
  rewrite (failure_delivered env _ _ _ _ e Hp (body_malformed env r e)).
  cbn [apply with_ui with_pending ui toasts result isScanning unhandled].
  rewrite Hres, Htoasts, Hun. repeat split.
Qed.

(** ** What the card and the toast show *)

Lemma probability_is_stored (first : json) :
  probability (record_of first) = opt_get (Some first) "probability".
Proof. reflexivity. Qed.

(** A probability that is a number other than zero is drawn as
    [(p * 100).toFixed(1)] followed by the percent sign. *)
Lemma confidence_of_number (record : PlantIdentification) (x : float) :
  probability record = Some (JNum x) ->
  to_boolean (Some (JNum x)) = true ->
  confidence_line record
  = (figure ← of_option (toFixed1 (PrimFloat.mul x 100));
     mret (Confidence (figure +:+ "%"))).
Proof.
  intros Hp Ht. unfold confidence_line. rewrite Hp, Ht. reflexivity.
Qed.

Lemma found_name_of_string (first : json) (name : string) :
  opt_get (Some first) "plant_name" = Some (JStr name) ->
  found_name (Some first) = Val name.
Proof.
  intros H. unfold found_name.
  assert (Hn : first <> JNull) by (intros ->; discriminate H).
  rewrite (get_not_null first _ Hn), H. reflexivity.
Qed.

(** ** A suggestion that is [null] *)

(** Reading [plant_details] of a [null] first suggestion throws inside the
    [try]: the failure is reported like any other and nothing is stored. *)
Lemma null_suggestion_is_reported (env : ImportMetaEnv) (s : session) (id : nat)
    (r : Response) (data : json) (rest : list json) :
  pending s !! id = Some (awaiting_json r) ->
  opt_get (Some data) "suggestions" = Some (JArr (JNull :: rest)) ->
  let s' := step env s (Deliver id (JsonSettled (Fulfilled data))) in
  result (ui s') = result (ui s)
  /\ toasts s' = toasts s ++ [error_toast]
  /\ console s' = console s ++ [("Plant ID error:", TypeError)]
  /\ isScanning (ui s') = false.
Proof.
  intros Hp Hs. cbv zeta.
  destruct (top_of_list _ _ _ Hs) as [Hpos Htop].
  rewrite (data_delivered env s id r data Hp).
  unfold after_data. rewrite Hpos. cbn [lift mbind async_bind bind].
  rewrite Htop. repeat split.
Qed.

(** * The properties, one by one *)

(** ** C1: the first suggestion is the match *)



(** ** C2: no suggestions, no match *)

(** C2.  When the suggestion list of the parsed response is absent or empty,
    the attempt stores no record, shows the "No Match Found" toast in place
    of the success toast, and ends.  Whatever else is going on, the delivery
    leaves the result as it was; and an attempt followed from its capture
    ends with the result [null], as the capture set it. *)
Theorem no_suggestions_is_no_match (env : ImportMetaEnv) (s : session)
    (id : nat) (r : Response) (data : json) :
  pending s !! id = Some (awaiting_json r) ->
  no_suggestions data ->
  let s' := step env s (Deliver id (JsonSettled (Fulfilled data))) in
  result (ui s') = result (ui s)
  /\ toasts s' = toasts s ++ [no_match_toast]
  /\ isScanning (ui s') = false
  /\ unhandled s' = unhandled s
  /\ pending s' = delete id (pending s)
  /\ (forall (s0 : session) (file : File) (rest : list File) (base64Image : string)
             (r0 : Response),
        let n := next_id s0 in
        let done := exec env [Change (Some (file :: rest));
                              Deliver (S n) (LoadEnd (Some base64Image));
                              Deliver (S (S n)) (FetchSettled (Fulfilled r0));
                              Deliver (S (S (S n))) (JsonSettled (Fulfilled data))] s0 in
        result (ui done) = None
        /\ toasts done = toasts s0 ++ [no_match_toast]).
Proof.
  intros Hp Hn. cbv zeta.
  rewrite (data_delivered env s id r data Hp).
  rewrite (no_match_run data _ (no_suggestions_not_positive data Hn)).
  repeat split;
    destruct (lone_attempt_without_match env s0 file rest base64Image r0 data Hn)
      as (Hres & Htoasts & _); assumption.
Qed.

Lemma no_suggestions_is_no_match_witness :
  let s' := step sample_env parsing_session
                 (Deliver 3 (JsonSettled (Fulfilled empty_list_response))) in
  result (ui s') = None
  /\ toasts s' = [no_match_toast]
  /\ isScanning (ui s') = false.
Proof.
  destruct (no_suggestions_is_no_match sample_env parsing_session 3 sample_response
              empty_list_response eq_refl (or_intror (or_intror eq_refl)))
    as (Hres & Htoasts & Hflag & _).
  exact (conj Hres (conj Htoasts Hflag)).
Defined.

(** ** C3: clearing while a request is out *)




(** ** C4: the confidence figure *)

(** C4.  A suggestion whose probability is [0] is stored with that
    probability, and the card then draws the bare text [0]: the guard
    [result.probability && ...] hands the falsy number to React, and the
    line with [(0 * 100).toFixed(1)], which is [0.0], is never built. *)
Theorem zero_probability_is_drawn_bare :
  exists record : PlantIdentification,
    result (ui (step sample_env parsing_session
                     (Deliver 3 (JsonSettled (Fulfilled zero_probability_response)))))
    = Some record
    /\ probability record = Some (JNum 0)
    /\ confidence_line record = Val (Text "0")
    /\ toFixed1 (PrimFloat.mul 0 100) = Some "0.0".
Proof.
  exists (record_of (JObj [("plant_name", JStr "Monstera deliciosa");
                           ("probability", JNum 0)])).
  vm_compute. repeat split.
Qed.

(** ** C5: fields the service did not supply *)

(** A suggestion without [plant_details] gets the empty list for its common
    names, not [undefined]. *)
Lemma missing_common_names_become_empty_list :
  exists record : PlantIdentification,
    identification (Some bare_suggestion) = Val record
    /\ opt_get (Some bare_suggestion) "plant_details" = None
    /\ common_names record = Some (JArr [])
    /\ common_names record <> undefined.
Proof.
  exists (record_of bare_suggestion). repeat split. discriminate.
Qed.

(** C5, as the code has it.  Every field of the record is what the first
    suggestion supplies and is absent when it supplies nothing, except the
    common names, where a missing or falsy value is replaced by the empty
    list.  Without [plant_details], description and taxonomy are absent and
    the common names are the empty list. *)
Theorem unsupplied_fields_are_absent_except_names (first : json) :
  first <> JNull ->
  let details := opt_get (Some first) "plant_details" in
  exists record : PlantIdentification,
    identification (Some first) = Val record
    /\ scientific_name record = opt_get (Some first) "plant_name"
    /\ probability record = opt_get (Some first) "probability"
    /\ wiki_description record = opt_get details "wiki_description"
    /\ taxonomy record = opt_get details "taxonomy"
    /\ common_names record
       = (if to_boolean (opt_get details "common_names")
          then opt_get details "common_names"
          else Some (JArr []))
    /\ (nullish details = true ->
        wiki_description record = None
        /\ taxonomy record = None
        /\ common_names record = Some (JArr [])).
Proof.
  intros Hn details. exists (record_of first).
  split; [exact (identification_total first Hn)|].
  repeat split; unfold record_of; fold details; cbn [wiki_description taxonomy common_names];
    destruct details as [[]|]; try discriminate; reflexivity.
Qed.

Lemma unsupplied_fields_are_absent_except_names_witness :
  let details := opt_get (Some bare_suggestion) "plant_details" in
  exists record : PlantIdentification,
    identification (Some bare_suggestion) = Val record
    /\ scientific_name record = opt_get (Some bare_suggestion) "plant_name"
    /\ probability record = opt_get (Some bare_suggestion) "probability"
    /\ wiki_description record = opt_get details "wiki_description"
    /\ taxonomy record = opt_get details "taxonomy"
    /\ common_names record
       = (if to_boolean (opt_get details "common_names")
          then opt_get details "common_names"
          else Some (JArr []))
    /\ (nullish details = true ->
        wiki_description record = None
        /\ taxonomy record = None
        /\ common_names record = Some (JArr [])).
Proof.
  apply (unsupplied_fields_are_absent_except_names bare_suggestion). discriminate.
Defined.

(** ** C6: failures are caught and reported *)

(** C6.  When the encoding fails, the request is rejected, or the body does
    not parse, the attempt catches the failure: it logs it, shows exactly
    one toast, the one titled "Error" (which is no success toast), stores no
    record, and ends with the scanning flag off.  And over every run of the
    event loop no exception is left uncaught. *)
Theorem failures_are_reported (env : ImportMetaEnv) (s : session) (id : nat)
    (su : suspended) (a : reply) (e : thrown) (events : list event) :
  pending s !! id = Some su ->
  failure_of env su a e ->
  let s' := step env s (Deliver id a) in
  toasts s' = toasts s ++ [error_toast]
  /\ title error_toast = "Error"
  /\ (forall found : string, error_toast <> identified_toast found)
  /\ console s' = console s ++ [("Plant ID error:", e)]
  /\ unhandled s' = unhandled s
  /\ result (ui s') = result (ui s)
  /\ isScanning (ui s') = false
  /\ pending s' = delete id (pending s)
  /\ unhandled (exec env events initial) = [].
Proof.
  intros Hp Hf. cbv zeta. rewrite (failure_delivered env s id su a e Hp Hf).
  repeat split.
  - intros found H. discriminate H.
  - apply nothing_escapes.
Qed.

Lemma failures_are_reported_witness :
  let s' := step sample_env requesting_session
                 (Deliver 2 (FetchSettled (Rejected (Reason "Failed to fetch")))) in
  toasts s' = toasts requesting_session ++ [error_toast]
  /\ title error_toast = "Error"
  /\ (forall found : string, error_toast <> identified_toast found)
  /\ console s' = console requesting_session
                  ++ [("Plant ID error:", Reason "Failed to fetch")]
  /\ unhandled s' = unhandled requesting_session
  /\ result (ui s') = result (ui requesting_session)
  /\ isScanning (ui s') = false
  /\ pending s' = delete 2 (pending requesting_session)
  /\ unhandled (exec sample_env [Change (Some [sample_file]); ClickClear] initial) = [].
Proof.
  apply (failures_are_reported sample_env requesting_session 2
           (awaiting_response sample_env (request_text sample_url))
           (FetchSettled (Rejected (Reason "Failed to fetch")))
           (Reason "Failed to fetch")
           [Change (Some [sample_file]); ClickClear]);
    [reflexivity | apply transport_failed].
Defined.

(** ** C7: clearing *)

(** C7, as the code has it.  Clearing while no scan is in progress leaves the
    component exactly idle: no preview, no result, not scanning; it shows
    nothing and nothing can go wrong in it. *)
Theorem clear_yields_idle_when_not_scanning (env : ImportMetaEnv) (s : session) :
  isScanning (ui s) = false ->
  let s' := step env s ClickClear in
  idle (ui s')
  /\ toasts s' = toasts s
  /\ unhandled s' = unhandled s
  /\ beyond s' = beyond s.
Proof. intros H. repeat split. exact H. Qed.

Lemma clear_yields_idle_when_not_scanning_witness :
  let s := step sample_env parsing_session
                (Deliver 3 (JsonSettled (Fulfilled monstera))) in
  let s' := step sample_env s ClickClear in
  result (ui s) = Some (record_of monstera_top)
  /\ idle (ui s')
  /\ toasts s' = toasts s
  /\ unhandled s' = unhandled s
  /\ beyond s' = beyond s.
Proof.
  split; [vm_compute; reflexivity|].
  apply (clear_yields_idle_when_not_scanning sample_env
           (step sample_env parsing_session
                 (Deliver 3 (JsonSettled (Fulfilled monstera))))).
  vm_compute. reflexivity.
Defined.

(** The preview has loaded while the request is still out; the user clears;
    the component is left scanning, with the spinner on and the trigger
    disabled, which is not the idle state. *)
Lemma clear_while_scanning_is_not_idle :
  let s' := step sample_env requesting_session ClickClear in
  imagePreview (ui requesting_session) = Some sample_url
  /\ isScanning (ui requesting_session) = true
  /\ imagePreview (ui s') = None
  /\ result (ui s') = None
  /\ isScanning (ui s') = true
  /\ ~ idle (ui s').
Proof.
  vm_compute. repeat split. intros [H _]. discriminate H.
Qed.

(** ** C8: the three toasts *)

(** C8, as the code has it.  The handler shows one of three toasts: for an
    identified plant the title "Plant Identified!" with the scientific name
    in the description and the default look; for no match the title "No
    Match Found" with the guidance text; for a failure the title "Error"
    with the generic text.  The last two share the [destructive] variant:
    there is no warning variant. *)
Theorem toast_of_each_outcome (env : ImportMetaEnv) (s : session) (id : nat)
    (r : Response) :
  pending s !! id = Some (awaiting_json r) ->
  (forall (data first : json) (rest : list json) (name : string),
      opt_get (Some data) "suggestions" = Some (JArr (first :: rest)) ->
      opt_get (Some first) "plant_name" = Some (JStr name) ->
      toasts (step env s (Deliver id (JsonSettled (Fulfilled data))))
      = toasts s ++ [{| title := "Plant Identified!";
                        description := "Found: " +:+ name;
                        variant := None |}])
  /\ (forall data : json,
        no_suggestions data ->
        toasts (step env s (Deliver id (JsonSettled (Fulfilled data))))
        = toasts s ++ [{| title := "No Match Found";
                          description := "Try a clearer image or different angle.";
                          variant := Some "destructive" |}])
  /\ (forall e : thrown,
        toasts (step env s (Deliver id (JsonSettled (Rejected e))))
        = toasts s ++ [{| title := "Error";
                          description := "Unable to identify this plant.";
                          variant := Some "destructive" |}]).
Proof.
  intros Hp. split; [|split].
  - intros data first rest name Hs Hname.
    assert (Hn : first <> JNull) by (intros ->; discriminate Hname).
    destruct (top_of_list _ _ _ Hs) as [Hpos Htop].
    rewrite (data_delivered env s id r data Hp).
    rewrite (identified_run data (Some first) (record_of first) name _
               Hpos Htop (identification_total first Hn)
               (found_name_of_string first name Hname)).
    reflexivity.
  - intros data Hn.
    rewrite (data_delivered env s id r data Hp).
    rewrite (no_match_run data _ (no_suggestions_not_positive data Hn)).
    reflexivity.
  - intros e.
    rewrite (failure_delivered env s id _ _ e Hp (body_malformed env r e)).
    reflexivity.
Qed.

Lemma toast_of_each_outcome_witness :
  toasts (step sample_env parsing_session (Deliver 3 (JsonSettled (Fulfilled monstera))))
  = [{| title := "Plant Identified!";
        description := "Found: Monstera deliciosa";
        variant := None |}].
Proof.
  exact (proj1 (toast_of_each_outcome sample_env parsing_session 3 sample_response
                  (eq_refl : pending parsing_session !! 3
                             = Some (awaiting_json sample_response)))
               monstera monstera_top [] "Monstera deliciosa" eq_refl eq_refl).
Defined.

(** The toast for an empty suggestion list and the toast for a rejected
    body carry the same variant. *)
Lemma no_match_toast_is_destructive :
  exists t1 t2 : Toast,
    toasts (step sample_env parsing_session
                 (Deliver 3 (JsonSettled (Fulfilled empty_list_response)))) = [t1]
    /\ toasts (step sample_env parsing_session
                    (Deliver 3 (JsonSettled (Rejected (Reason "Unexpected token"))))) = [t2]
    /\ title t1 = "No Match Found"
    /\ title t2 = "Error"
    /\ variant t1 = Some "destructive"
    /\ variant t1 = variant t2.
Proof.
  exists no_match_toast, error_toast. vm_compute. repeat split.
Qed.

(** ** C9: the request *)

(** C9.  Every request the component ever puts on the network is a POST to
    the identification endpoint with the JSON content type and the
    configured key as headers, whose body is the text of
    [{ images: [base64Image], similar_images: true }] for one encoded
    image; and the request an attempt sends carries the image its own
    encoding produced. *)
Theorem every_request_is_the_documented_post (env : ImportMetaEnv)
    (events : list event) :
  let s := exec env events initial in
  Forall (documented_request env) (network s)
  /\ (forall (id : nat) (file : File) (base64Image : string),
        pending s !! id = Some (awaiting_encoding env file) ->
        network (step env s (Deliver id (LoadEnd (Some base64Image))))
        = network s
          ++ [("https://api.plant.id/v2/identify",
               {| method := "POST";
                  headers := [("Content-Type", Some "application/json");
                              ("Api-Key", VITE_PLANT_ID_API_KEY env)];
                  body := request_text base64Image |})]).
Proof.
  cbv zeta. split.
  - exact (requests env _ (consistent_reachable env events)).
  - intros id file base64Image Hp.
    rewrite (encoding_delivered env _ id file base64Image Hp). reflexivity.
Qed.

(** ** C10: the scanning flag *)



(** * More of the component *)

(** ** The early return *)

(** X1.  A change event without a file, whether the list is [null] or
    empty, leaves everything as it was: the state, the toasts, the network
    and what is in flight. *)
Theorem capture_without_a_file_changes_nothing (env : ImportMetaEnv) (s : session)
    (files : option (list File)) :
  files = None \/ files = Some [] ->
  step env s (Change files) = s.
Proof. intros [-> | ->]; reflexivity. Qed.

Lemma capture_without_a_file_changes_nothing_witness :
  step sample_env parsing_session (Change (Some [])) = parsing_session.
Proof.
  apply (capture_without_a_file_changes_nothing sample_env parsing_session (Some [])).
  right. reflexivity.
Defined.

(** ** Deliveries to an attempt and to the preview reader *)

Lemma deliver_attempt_cases (env : ImportMetaEnv) (s : session) (id : nat)
    (su : suspended) (a : reply) :
  pending s !! id = Some su ->
  in_attempt env su ->
  step env s (Deliver id a) = s
  \/ (exists su' : suspended,
        in_attempt env su'
        /\ step env s (Deliver id a) = park_at su' (with_pending (delete id) s))
  \/ tail_of (with_pending (delete id) s) (step env s (Deliver id a)).
Proof.
  intros Hp Hin. revert Hp. destruct Hin as [file | text | r]; intros Hp.
  - destruct a as [[base64Image|] | o | o].
    + right; left. exists (awaiting_response env (request_text base64Image)).
      split; [apply at_response | exact (encoding_delivered env s id file _ Hp)].
    + right; right.
      rewrite (failure_delivered env s id _ _ _ Hp (encoding_failed env file)).
      apply tail_failed.
    + left. now rewrite (deliver_mismatch env s id _ _ Hp) by reflexivity.
    + left. now rewrite (deliver_mismatch env s id _ _ Hp) by reflexivity.
  - destruct a as [x | [r | e] | o].
    + left. now rewrite (deliver_mismatch env s id _ _ Hp) by reflexivity.
    + right; left. exists (awaiting_json r).
      split; [apply at_json | exact (response_delivered env s id text r Hp)].
    + right; right.
      rewrite (failure_delivered env s id _ _ _ Hp (transport_failed env text e)).
      apply tail_failed.
    + left. now rewrite (deliver_mismatch env s id _ _ Hp) by reflexivity.
  - destruct a as [x | o | [data | e]].
    + left. now rewrite (deliver_mismatch env s id _ _ Hp) by reflexivity.
    + left. now rewrite (deliver_mismatch env s id _ _ Hp) by reflexivity.
    + right; right. rewrite (data_delivered env s id r data Hp). apply tail_cases.
    + right; right.
      rewrite (failure_delivered env s id _ _ _ Hp (body_malformed env r e)).
      apply tail_failed.
Qed.

Lemma deliver_preview_cases (env : ImportMetaEnv) (s : session) (id : nat)
    (file : File) (a : reply) :
  pending s !! id = Some (awaiting_preview file) ->
  step env s (Deliver id a) = s
  \/ exists r : option string,
       step env s (Deliver id a)
       = apply (SetImagePreview r) (with_pending (delete id) s).
Proof.
  intros Hp. destruct a as [r | o | o].
  - right. exists r. exact (preview_delivered env s id file r Hp).
  - left. now rewrite (deliver_mismatch env s id _ _ Hp) by reflexivity.
  - left. now rewrite (deliver_mismatch env s id _ _ Hp) by reflexivity.
Qed.

Lemma tail_keeps_preview (s s' : session) :
  tail_of s s' ->
  imagePreview (ui s') = imagePreview (ui s) /\ fileInput (ui s') = fileInput (ui s).
Proof. intros []; split; reflexivity. Qed.

Lemma tail_toasts (s s' : session) :
  tail_of s s' ->
  toasts s' = toasts s
  \/ exists t : Toast, handler_toast t /\ toasts s' = toasts s ++ [t].
Proof.
  intros [record found | | e | record e | | record].
  - right. exists (identified_toast found). split; [left; now exists found | reflexivity].
  - right. exists no_match_toast. split; [right; left; reflexivity | reflexivity].
  - right. exists error_toast. split; [right; right; reflexivity | reflexivity].
  - right. exists error_toast. split; [right; right; reflexivity | reflexivity].
  - left. reflexivity.
  - left. reflexivity.
Qed.

(** ** The start of an attempt *)

(** X2.  A change event with files starts an attempt on the first file
    only: the flag goes on and the earlier result is dropped at once, the
    earlier preview stays, nothing is shown or sent yet, and two reads of
    that file are parked, one for the preview and one for the encoding. *)
Theorem capture_starts_on_first_file (env : ImportMetaEnv) (s : session)
    (file : File) (rest : list File) :
  let s' := step env s (Change (Some (file :: rest))) in
  isScanning (ui s') = true
  /\ result (ui s') = None
  /\ imagePreview (ui s') = imagePreview (ui s)
  /\ toasts s' = toasts s
  /\ network s' = network s
  /\ pending s' !! next_id s = Some (awaiting_preview file)
  /\ pending s' !! S (next_id s) = Some (awaiting_encoding env file)
  /\ s' = step env s (Change (Some [file])).
Proof.
  cbv zeta.
  change (step env s (Change (Some (file :: rest))))
    with (run (handleImageCapture env (Some (file :: rest))) s).
  rewrite capture_parks. repeat split.
  - cbn. rewrite lookup_insert_ne by lia. apply lookup_insert_eq.
  - apply lookup_insert_eq.
Qed.

(** ** The preview reader *)

(** X3.  When the preview read ends, the preview becomes what the reader
    holds, [null] after a failed read, whatever was shown before; the
    result, the flag, the toasts and the network are left alone. *)
Theorem preview_load_only_sets_preview (env : ImportMetaEnv) (s : session)
    (id : nat) (file : File) (r : option string) :
  pending s !! id = Some (awaiting_preview file) ->
  let s' := step env s (Deliver id (LoadEnd r)) in
  imagePreview (ui s') = r
  /\ preview_image (render (ui s')) = truthy_string r
  /\ result (ui s') = result (ui s)
  /\ isScanning (ui s') = isScanning (ui s)
  /\ toasts s' = toasts s
  /\ network s' = network s
  /\ pending s' = delete id (pending s).
Proof.
  intros Hp. cbv zeta. rewrite (preview_delivered env s id file r Hp).
  repeat split.
Qed.

Lemma preview_load_only_sets_preview_witness :
  let s0 := step sample_env initial (Change (Some [sample_file])) in
  let s' := step sample_env s0 (Deliver 0 (LoadEnd None)) in
  imagePreview (ui s') = None
  /\ preview_image (render (ui s')) = truthy_string None
  /\ result (ui s') = result (ui s0)
  /\ isScanning (ui s') = isScanning (ui s0)
  /\ toasts s' = toasts s0
  /\ network s' = network s0
  /\ pending s' = delete 0 (pending s0).
Proof.
  apply (preview_load_only_sets_preview sample_env
           (step sample_env initial (Change (Some [sample_file]))) 0 sample_file None).
  reflexivity.
Defined.

(** X4.  Nothing an attempt does after its capture touches the preview or
    the file input: whatever is delivered to it, and however it ends, the
    preview on the page stays. *)
Theorem attempt_keeps_preview (env : ImportMetaEnv) (s : session) (id : nat)
    (su : suspended) (a : reply) :
  pending s !! id = Some su ->
  in_attempt env su ->
  let s' := step env s (Deliver id a) in
  imagePreview (ui s') = imagePreview (ui s)
  /\ fileInput (ui s') = fileInput (ui s).
Proof.
  intros Hp Hin. cbv zeta.
  destruct (deliver_attempt_cases env s id su a Hp Hin)
    as [-> | [(su' & _ & ->) | Ht]].
  - split; reflexivity.
  - destruct su'. split; reflexivity.
  - exact (tail_keeps_preview _ _ Ht).
Qed.

Lemma attempt_keeps_preview_witness :
  let s' := step sample_env requesting_session
                 (Deliver 2 (FetchSettled (Rejected (Reason "Failed to fetch")))) in
  imagePreview (ui s') = imagePreview (ui requesting_session)
  /\ fileInput (ui s') = fileInput (ui requesting_session).
Proof.
  apply (attempt_keeps_preview sample_env requesting_session 2
           (awaiting_response sample_env (request_text sample_url))).
  - reflexivity.
  - apply at_response.
Defined.

(** ** What goes out and what is shown *)

(** X5.  Apart from an encoding that succeeds, nothing delivered to an
    attempt puts a request on the network: not a failed encoding, and no
    answer or failure of the request or of its body.  There is no retry. *)
Theorem only_an_encoding_sends (env : ImportMetaEnv) (s : session) (id : nat)
    (su : suspended) (a : reply) :
  pending s !! id = Some su ->
  in_attempt env su ->
  (forall base64Image : string, a <> LoadEnd (Some base64Image)) ->
  network (step env s (Deliver id a)) = network s.
Proof.
  intros Hp Hin. revert Hp. destruct Hin as [file | text | r]; intros Hp Ha.
  - destruct a as [[base64Image|] | o | o].
    + now destruct (Ha base64Image).
    + now rewrite (failure_delivered env s id _ _ _ Hp (encoding_failed env file)).
    + now rewrite (deliver_mismatch env s id _ _ Hp) by reflexivity.
    + now rewrite (deliver_mismatch env s id _ _ Hp) by reflexivity.
  - destruct a as [x | [r | e] | o].
    + now rewrite (deliver_mismatch env s id _ _ Hp) by reflexivity.
    + now rewrite (response_delivered env s id text r Hp).
    + now rewrite (failure_delivered env s id _ _ _ Hp (transport_failed env text e)).
    + now rewrite (deliver_mismatch env s id _ _ Hp) by reflexivity.
  - destruct a as [x | o | [data | e]].
    + now rewrite (deliver_mismatch env s id _ _ Hp) by reflexivity.
    + now rewrite (deliver_mismatch env s id _ _ Hp) by reflexivity.
    + rewrite (data_delivered env s id r data Hp).
      now destruct (tail_keeps_flight _ _ (tail_cases data (with_pending (delete id) s)))
        as (_ & -> & _).
    + now rewrite (failure_delivered env s id _ _ _ Hp (body_malformed env r e)).
Qed.

Lemma only_an_encoding_sends_witness :
  network (step sample_env (step sample_env initial (Change (Some [sample_file])))
                (Deliver 1 (LoadEnd None)))
  = network (step sample_env initial (Change (Some [sample_file]))).
Proof.
  apply (only_an_encoding_sends sample_env
           (step sample_env initial (Change (Some [sample_file]))) 1
           (awaiting_encoding sample_env sample_file) (LoadEnd None)).
  - reflexivity.
  - apply at_encoding.
  - intros base64Image H. discriminate H.
Defined.

(** X6.  In every session the loop can reach, an event shows at most one
    toast, and only one of the handler's three; a capture and a clear show
    none. *)
Theorem one_toast_at_most (env : ImportMetaEnv) (events : list event) (e : event) :
  let s := exec env events initial in
  (toasts (step env s e) = toasts s
   \/ exists t : Toast, handler_toast t /\ toasts (step env s e) = toasts s ++ [t])
  /\ (forall files : option (list File), toasts (step env s (Change files)) = toasts s)
  /\ toasts (step env s ClickClear) = toasts s.
Proof.
  cbv zeta. pose proof (consistent_reachable env events) as Hc.
  set (s := exec env events initial) in *.
  assert (Hchange : forall files, toasts (step env s (Change files)) = toasts s).
  { intros files. cbn [step]. destruct (files ≫= head) as [file|] eqn:Hf.
    - now rewrite (capture_with_file env files file s Hf).
    - now rewrite (capture_without_file env files s Hf). }
  split; [|split; [exact Hchange | reflexivity]].
  destruct e as [files | | id a].
  - left. apply Hchange.
  - left. reflexivity.
  - destruct (pending s !! id) as [su|] eqn:Hp;
      [|left; now rewrite (deliver_unknown env s id a Hp)].
    destruct (deliver_cases env s id su a Hp (flights env s Hc id su Hp))
      as [ | file r _ | base64Image | r | s' Ht ];
      try (left; reflexivity).
    exact (tail_toasts _ _ Ht).
Qed.

(** ** The runs the page offers *)

Lemma pending_park_at (su : suspended) (s : session) :
  pending (park_at su s) = <[next_id s := su]> (pending s).
Proof. destruct su. reflexivity. Qed.

Lemma ui_park_at (su : suspended) (s : session) : ui (park_at su s) = ui s.
Proof. destruct su. reflexivity. Qed.

Section Orderly.

Variable env : ImportMetaEnv.

Lemma orderly_initial : orderly env initial.
Proof.
  split.
  - apply consistent_initial.
  - intros id1 id2 su1 su2 H1. change (pending initial) with (∅ : gmap nat suspended) in H1.
    now rewrite lookup_empty in H1.
  - intros (id & su & H & _). change (pending initial) with (∅ : gmap nat suspended) in H.
    now rewrite lookup_empty in H.
  - reflexivity.
Qed.

(** Once the one attempt in flight has been taken out, none is left. *)
Lemma no_other_attempt (s : session) (id : nat) (su : suspended) :
  single_flight env s ->
  pending s !! id = Some su ->
  in_attempt env su ->
  forall (id' : nat) (su' : suspended),
    delete id (pending s) !! id' = Some su' -> ~ in_attempt env su'.
Proof.
  intros Hs Hp Hin id' su' H Hin'.
  apply lookup_delete_Some in H as [Hne H].
  apply Hne. exact (Hs id id' su su' Hp Hin H Hin').
Qed.

Lemma orderly_step (s : session) (e : event) :
  orderly env s -> offered (ui s) e = true -> orderly env (step env s e).
Proof.
  intros Ho Hoff. pose proof (consistent_step env s e (orderly_consistent env s Ho)) as Hc'.
  destruct Ho as [Hc Hs Hf Hr].
  destruct e as [[[|file rest]|] | | id a]; try exact (Build_orderly env s Hc Hs Hf Hr).
  - (* a capture, offered while the flag is off *)
    assert (Hoff' : isScanning (ui s) = false)
      by (cbn in Hoff; now destruct (isScanning (ui s))).
    assert (Hnone : forall id su, pending s !! id = Some su -> ~ in_attempt env su).
    { intros id su H Hin. rewrite (Hf (ex_intro _ id (ex_intro _ su (conj H Hin)))) in Hoff'.
      discriminate Hoff'. }
    revert Hc'.
    change (step env s (Change (Some (file :: rest))))
      with (run (handleImageCapture env (Some (file :: rest))) s).
    rewrite capture_parks. intros Hc'.
    assert (Honly : forall id su,
               pending (park_at (awaiting_encoding env file)
                          (park_at (awaiting_preview file)
                             (apply (SetResult None) (apply (SetIsScanning true) s)))) !! id
               = Some su ->
               in_attempt env su -> id = S (next_id s)).
    { intros id su H Hin. cbn in H.
      apply lookup_insert_Some in H as [[<- _] | [_ H]]; [reflexivity|].
      apply lookup_insert_Some in H as [[_ <-] | [_ H]].
      - destruct (preview_is_no_attempt env file Hin).
      - destruct (Hnone id su H Hin). }
    split; [exact Hc' | | reflexivity | reflexivity].
    intros id1 id2 su1 su2 H1 I1 H2 I2.
    now rewrite (Honly id1 su1 H1 I1), (Honly id2 su2 H2 I2).
  - (* a clear *)
    split; [exact Hc' | exact Hs | exact Hf | reflexivity].
  - (* a delivery *)
    destruct (pending s !! id) as [su|] eqn:Hp;
      [|rewrite (deliver_unknown env s id a Hp); exact (Build_orderly env s Hc Hs Hf Hr)].
    destruct (flights env s Hc id su Hp) as [[file ->] | Hin].
    + destruct (deliver_preview_cases env s id file a Hp) as [Heq | [r Heq]];
        rewrite Heq in *; [exact (Build_orderly env s Hc Hs Hf Hr)|].
      assert (Hsub : in_flight env (apply (SetImagePreview r) (with_pending (delete id) s))
                     -> in_flight env s).
      { intros (id' & su' & H & Hin'). cbn in H.
        apply lookup_delete_Some in H as [_ H]. now exists id', su'. }
      split; [exact Hc' | | | ].
      * intros id1 id2 su1 su2 H1 I1 H2 I2. cbn in H1, H2.
        apply lookup_delete_Some in H1 as [_ H1].
        apply lookup_delete_Some in H2 as [_ H2].
        exact (Hs id1 id2 su1 su2 H1 I1 H2 I2).
      * intros H. exact (Hf (Hsub H)).
      * intros H. exact (Hr (Hsub H)).
    + pose proof (no_other_attempt s id su Hs Hp Hin) as Hgone.
      assert (Hfly : in_flight env s) by now exists id, su.
      destruct (deliver_attempt_cases env s id su a Hp Hin)
        as [Heq | [(su' & Hin' & Heq) | Ht]].
      * rewrite Heq. exact (Build_orderly env s Hc Hs Hf Hr).
      * rewrite Heq in *.
        assert (Honly : forall id' su'',
                   pending (park_at su' (with_pending (delete id) s)) !! id' = Some su'' ->
                   in_attempt env su'' -> id' = next_id s).
        { intros id' su'' H Hin''. rewrite pending_park_at in H.
          apply lookup_insert_Some in H as [[<- _] | [_ H]]; [reflexivity|].
          destruct (Hgone id' su'' H Hin''). }
        split; [exact Hc' | | | ].
        -- intros id1 id2 su1 su2 H1 I1 H2 I2.
           now rewrite (Honly id1 su1 H1 I1), (Honly id2 su2 H2 I2).
        -- intros _. rewrite ui_park_at. exact (Hf Hfly).
        -- intros _. rewrite ui_park_at. exact (Hr Hfly).
      * destruct (tail_keeps_flight _ _ Ht) as (Hpend & _ & _).
        assert (Hnone : ~ in_flight env (step env s (Deliver id a))).
        { intros (id' & su' & H & Hin'). rewrite Hpend in H.
          exact (Hgone id' su' H Hin'). }
        split; [exact Hc' | | | ].
        -- intros id1 id2 su1 su2 H1 I1. destruct Hnone. now exists id1, su1.
        -- intros H. destruct (Hnone H).
        -- intros H. destruct (Hnone H).
Qed.

Lemma orderly_run (events : list event) (s : session) :
  orderly env s -> offered_run env events s = true -> orderly env (exec env events s).
Proof.
  revert s. induction events as [|e events IH]; intros s Ho Hrun.
  - exact Ho.
  - cbn in Hrun. apply andb_prop in Hrun as [Hoff Hrun].
    exact (IH (step env s e) (orderly_step s e Ho Hoff) Hrun).
Qed.

Lemma orderly_reachable (events : list event) :
  offered_run env events initial = true -> orderly env (exec env events initial).
Proof. apply orderly_run, orderly_initial. Qed.

End Orderly.

Lemma failure_is_of_attempt (env : ImportMetaEnv) (su : suspended) (a : reply)
    (e : thrown) :
  failure_of env su a e -> in_attempt env su.
Proof. intros []; constructor. Qed.

(** X7.  Along the runs the page offers, where a file can only be picked
    while the trigger is enabled, at most one attempt is in flight at any
    time. *)
Theorem one_attempt_at_a_time (env : ImportMetaEnv) (events : list event) :
  offered_run env events initial = true ->
  single_flight env (exec env events initial).
Proof. intros H. exact (orderly_single env _ (orderly_reachable env events H)). Qed.

Lemma one_attempt_at_a_time_witness :
  single_flight sample_env (exec sample_env sample_events initial).
Proof.
  apply (one_attempt_at_a_time sample_env sample_events). vm_compute. reflexivity.
Defined.

(** X8.  Along those runs, while an attempt is in flight the trigger is
    disabled, the "Identifying plant..." banner is on, and no result card
    is on the page. *)
Theorem no_card_while_in_flight (env : ImportMetaEnv) (events : list event) :
  offered_run env events initial = true ->
  let s := exec env events initial in
  in_flight env s ->
  trigger_disabled (render (ui s)) = true
  /\ identifying (render (ui s)) = true
  /\ shown_card (render (ui s)) = None.
Proof.
  intros H s Hfly. pose proof (orderly_reachable env events H) as Ho. fold s in Ho.
  pose proof (orderly_flag env s Ho Hfly) as Hflag.
  pose proof (orderly_result env s Ho Hfly) as Hres.
  unfold render. cbn [trigger_disabled identifying shown_card].
  rewrite Hflag, Hres. repeat split.
Qed.

Lemma no_card_while_in_flight_witness :
  let s := exec sample_env sample_events initial in
  trigger_disabled (render (ui s)) = true
  /\ identifying (render (ui s)) = true
  /\ shown_card (render (ui s)) = None.
Proof.
  apply (no_card_while_in_flight sample_env sample_events).
  - vm_compute. reflexivity.
  - exists 3, (awaiting_json sample_response). split; [reflexivity | apply at_json].
Defined.

(** X9.  Along those runs, an attempt that fails, or whose response has no
    suggestions, ends with no result card on the page. *)
Theorem no_card_after_a_fruitless_attempt (env : ImportMetaEnv)
    (events : list event) (id : nat) (su : suspended) (a : reply) :
  offered_run env events initial = true ->
  let s := exec env events initial in
  pending s !! id = Some su ->
  ((exists e : thrown, failure_of env su a e)
   \/ (exists (r : Response) (data : json),
         su = awaiting_json r /\ a = JsonSettled (Fulfilled data)
         /\ no_suggestions data)) ->
  shown_card (render (ui (step env s (Deliver id a)))) = None.
Proof.
  intros H s Hp Hcase. pose proof (orderly_reachable env events H) as Ho. fold s in Ho.
  assert (Hres : result (ui (step env s (Deliver id a))) = None).
  { destruct Hcase as [[e Hf] | (r & data & -> & -> & Hn)].
    - rewrite (failure_delivered env s id su a e Hp Hf).
      apply (orderly_result env s Ho). exists id, su.
      split; [exact Hp | exact (failure_is_of_attempt env su a e Hf)].
    - rewrite (data_delivered env s id r data Hp).
      rewrite (no_match_run data _ (no_suggestions_not_positive data Hn)).
      apply (orderly_result env s Ho). exists id, (awaiting_json r).
      split; [exact Hp | apply at_json]. }
  unfold render. cbn [shown_card]. now rewrite Hres.
Qed.

Lemma no_card_after_a_fruitless_attempt_witness :
  shown_card (render (ui (step sample_env (exec sample_env sample_events initial)
                               (Deliver 3 (JsonSettled (Fulfilled empty_list_response))))))
  = None.
Proof.
  apply (no_card_after_a_fruitless_attempt sample_env sample_events 3
           (awaiting_json sample_response)
           (JsonSettled (Fulfilled empty_list_response))).
  - vm_compute. reflexivity.
  - reflexivity.
  - right. exists sample_response, empty_list_response.
    split; [reflexivity | split; [reflexivity | right; right; reflexivity]].
Defined.

(** ** Clearing *)

(** X10.  Clearing twice is clearing once; a clear empties the value of
    the file input when the ref is attached and does nothing to it
    otherwise; and it takes the preview image and the clear button off the
    page. *)
Theorem clearing_is_idempotent (env : ImportMetaEnv) (s : session) :
  let s' := step env s ClickClear in
  step env s' ClickClear = s'
  /\ fileInput (ui s') = match fileInput (ui s) with
                         | Some _ => Some EmptyString
                         | None => None
                         end
  /\ preview_image (render (ui s')) = None
  /\ clear_button (render (ui s')) = false.
Proof.
  cbv zeta. repeat split.
  destruct s as [[scanning preview res input] ? ? ? ? ? ? ?].
  destruct input; reflexivity.
Qed.

(** X11.  A clear does not stop the preview read: when the read ends
    after the clear, its image is put on the cleared page. *)
Theorem preview_after_clear_is_shown (env : ImportMetaEnv) (s : session)
    (id : nat) (file : File) (r : option string) :
  pending s !! id = Some (awaiting_preview file) ->
  let s' := step env (step env s ClickClear) (Deliver id (LoadEnd r)) in
  imagePreview (ui s') = r
  /\ preview_image (render (ui s')) = truthy_string r
  /\ result (ui s') = None.
Proof.
  intros Hp. cbv zeta.
  assert (Hc : pending (step env s ClickClear) !! id = Some (awaiting_preview file))
    by exact Hp.
  rewrite (preview_delivered env _ id file r Hc). repeat split.
Qed.

Lemma preview_after_clear_is_shown_witness :
  let s' := step sample_env (step sample_env second_capture_session ClickClear)
                 (Deliver 4 (LoadEnd (Some sample_url))) in
  imagePreview (ui s') = Some sample_url
  /\ preview_image (render (ui s')) = truthy_string (Some sample_url)
  /\ result (ui s') = None.
Proof.
  apply (preview_after_clear_is_shown sample_env second_capture_session 4 sample_file
           (Some sample_url)).
  reflexivity.
Defined.

(** ** The result card *)

Lemma texts_of_strings (names : list string) : texts (map JStr names) = Val names.
Proof.
  induction names as [|name names IH]; [reflexivity|].
  cbn [map texts to_string]. rewrite IH. reflexivity.
Qed.

Lemma names_line_of_strings (r : PlantIdentification) (names : list string) :
  common_names r = Some (JArr (map JStr names)) ->
  names <> [] ->
  names_line r = Val (Shown (String.concat ", " names)).
Proof.
  intros Hc Hne. unfold names_line. rewrite Hc.
  destruct names as [|name names]; [now destruct Hne|].
  cbn [map length_gt_zero mbind eval_bind join_names].
  change (JStr name :: map JStr names) with (map JStr (name :: names)).
  rewrite texts_of_strings. reflexivity.
Qed.

(** X12.  When the common names the service sent are a non-empty array of
    strings, they are stored as they are and the card shows them in the
    order received, separated by a comma and a space. *)
Theorem names_are_joined_in_order (first details : json) (names : list string) :
  opt_get (Some first) "plant_details" = Some details ->
  opt_get (Some details) "common_names" = Some (JArr (map JStr names)) ->
  names <> [] ->
  exists record : PlantIdentification,
    identification (Some first) = Val record
    /\ common_names record = Some (JArr (map JStr names))
    /\ names_line record = Val (Shown (String.concat ", " names)).
Proof.
  intros Hd Hc Hne.
  assert (Hn : first <> JNull) by (intros ->; discriminate Hd).
  exists (record_of first). split; [exact (identification_total first Hn)|].
  assert (Hnames : common_names (record_of first) = Some (JArr (map JStr names))).
  { unfold record_of. cbn [common_names]. rewrite Hd, Hc. reflexivity. }
  split; [exact Hnames | exact (names_line_of_strings _ names Hnames Hne)].
Qed.

Lemma names_are_joined_in_order_witness :
  exists record : PlantIdentification,
    identification (Some described_monstera) = Val record
    /\ common_names record
       = Some (JArr (map JStr ["Swiss cheese plant"; "Split-leaf philodendron"]))
    /\ names_line record
       = Val (Shown (String.concat ", " ["Swiss cheese plant"; "Split-leaf philodendron"])).
Proof.
  apply (names_are_joined_in_order described_monstera
           (JObj [("common_names", JArr [JStr "Swiss cheese plant";
                                         JStr "Split-leaf philodendron"]);
                  ("wiki_description", JObj [("value", JStr "A species of flowering plant.")]);
                  ("taxonomy", JObj [("family", JStr "Araceae");
                                     ("genus", JStr "Monstera")])])
           ["Swiss cheese plant"; "Split-leaf philodendron"]);
    [reflexivity | reflexivity | discriminate].
Defined.

(** X13.  A first suggestion with neither [plant_details] nor
    [probability] gives a card with the heading alone: thanks to the empty
    list put in for the missing names, no line of names, and no confidence,
    taxonomy or description. *)
Theorem bare_suggestion_shows_heading_only (first : json) :
  first <> JNull ->
  nullish (opt_get (Some first) "plant_details") = true ->
  opt_get (Some first) "probability" = None ->
  exists record : PlantIdentification,
    identification (Some first) = Val record
    /\ result_card record
       = Val {| heading := opt_get (Some first) "plant_name";
                names := Absent;
                confidence := Nothing;
                family_genus := Absent;
                about := Absent |}.
Proof.
  intros Hn Hd Hp. exists (record_of first).
  split; [exact (identification_total first Hn)|].
  unfold result_card, names_line, confidence_line, taxonomy_block, description_block,
    record_of.
  cbn [common_names scientific_name probability wiki_description taxonomy].
  rewrite Hp. destruct (opt_get (Some first) "plant_details") as [[]|];
    try discriminate Hd; reflexivity.
Qed.

Lemma bare_suggestion_shows_heading_only_witness :
  exists record : PlantIdentification,
    identification (Some bare_suggestion) = Val record
    /\ result_card record
       = Val {| heading := opt_get (Some bare_suggestion) "plant_name";
                names := Absent;
                confidence := Nothing;
                family_genus := Absent;
                about := Absent |}.
Proof.
  apply (bare_suggestion_shows_heading_only bare_suggestion);
    [discriminate | reflexivity | reflexivity].
Defined.

(** X14.  A first suggestion with string names, a non-zero probability, a
    taxonomy object and a non-empty description is drawn in full: the name
    as received, the names joined, the probability times one hundred to one
    decimal with a percent sign, the family and the genus (or nothing for
    the one that is missing), and the description. *)
Theorem full_suggestion_is_drawn_in_full (first details : json)
    (names : list string) (p : float) (figure text : string)
    (taxa wiki : list (string * json)) :
  opt_get (Some first) "plant_details" = Some details ->
  opt_get (Some details) "common_names" = Some (JArr (map JStr names)) ->
  names <> [] ->
  opt_get (Some first) "probability" = Some (JNum p) ->
  to_boolean (Some (JNum p)) = true ->
  toFixed1 (PrimFloat.mul p 100) = Some figure ->
  opt_get (Some details) "taxonomy" = Some (JObj taxa) ->
  opt_get (Some details) "wiki_description" = Some (JObj wiki) ->
  own_prop "value" wiki = Some (JStr text) ->
  text <> EmptyString ->
  exists record : PlantIdentification,
    identification (Some first) = Val record
    /\ result_card record
       = Val {| heading := opt_get (Some first) "plant_name";
                names := Shown (String.concat ", " names);
                confidence := Confidence (figure +:+ "%");
                family_genus := Shown (own_prop "family" taxa, own_prop "genus" taxa);
                about := Shown (Some (JStr text)) |}.
Proof.
  intros Hd Hc Hne Hp Htruthy Hfig Ht Hw Hv Htext.
  assert (Hn : first <> JNull) by (intros ->; discriminate Hd).
  exists (record_of first). split; [exact (identification_total first Hn)|].
  assert (Hnames : common_names (record_of first) = Some (JArr (map JStr names))).
  { unfold record_of. cbn [common_names]. rewrite Hd, Hc. reflexivity. }
  assert (Hprob : probability (record_of first) = Some (JNum p)) by exact Hp.
  unfold result_card.
  rewrite (names_line_of_strings (record_of first) names Hnames Hne).
  rewrite (confidence_of_number (record_of first) p Hprob Htruthy), Hfig.
  unfold taxonomy_block, description_block, record_of.
  cbn [taxonomy wiki_description scientific_name]. rewrite Hd, Ht, Hw.
  cbn [opt_get to_boolean get mbind eval_bind mret eval_ret of_option].
  rewrite Hv. cbn [to_boolean].
  destruct text as [|c text]; [now destruct Htext|]. reflexivity.
Qed.

Lemma full_suggestion_is_drawn_in_full_witness :
  exists record : PlantIdentification,
    identification (Some described_monstera) = Val record
    /\ result_card record
       = Val {| heading := Some (JStr "Monstera deliciosa");
                names := Shown "Swiss cheese plant, Split-leaf philodendron";
                confidence := Confidence "97.0%";
                family_genus := Shown (Some (JStr "Araceae"), Some (JStr "Monstera"));
                about := Shown (Some (JStr "A species of flowering plant.")) |}.
Proof.
  apply (full_suggestion_is_drawn_in_full described_monstera
           (JObj [("common_names", JArr [JStr "Swiss cheese plant";
                                         JStr "Split-leaf philodendron"]);
                  ("wiki_description", JObj [("value", JStr "A species of flowering plant.")]);
                  ("taxonomy", JObj [("family", JStr "Araceae");
                                     ("genus", JStr "Monstera")])])
           ["Swiss cheese plant"; "Split-leaf philodendron"]
           0.97 "97.0" "A species of flowering plant."
           [("family", JStr "Araceae"); ("genus", JStr "Monstera")]
           [("value", JStr "A species of flowering plant.")]);
    try reflexivity; discriminate.
Defined.

(** X15.  Common names that arrive as one non-empty string are stored as
    they are, and drawing the card then throws: a string has a length but
    no [join]. *)
Theorem string_names_break_the_card (first details : json) (name : string) :
  opt_get (Some first) "plant_details" = Some details ->
  opt_get (Some details) "common_names" = Some (JStr name) ->
  name <> EmptyString ->
  exists record : PlantIdentification,
    identification (Some first) = Val record
    /\ common_names record = Some (JStr name)
    /\ result_card record = Exc TypeError.
Proof.
  intros Hd Hc Hname.
  assert (Hn : first <> JNull) by (intros ->; discriminate Hd).
  exists (record_of first). split; [exact (identification_total first Hn)|].
  assert (Hnames : common_names (record_of first) = Some (JStr name)).
  { unfold record_of. cbn [common_names]. rewrite Hd, Hc.
    destruct name; [now destruct Hname | reflexivity]. }
  split; [exact Hnames|].
  unfold result_card, names_line. rewrite Hnames.
  destruct name; [now destruct Hname | reflexivity].
Qed.

Lemma string_names_break_the_card_witness :
  exists record : PlantIdentification,
    identification (Some misnamed_suggestion) = Val record
    /\ common_names record = Some (JStr "Swiss cheese plant")
    /\ result_card record = Exc TypeError.
Proof.
  apply (string_names_break_the_card misnamed_suggestion
           (JObj [("common_names", JStr "Swiss cheese plant")]) "Swiss cheese plant");
    [reflexivity | reflexivity | discriminate].
Defined.

(** ** Where a result comes from *)

Lemma tail_stores_first_suggestion (data : json) (s : session) :
  let s' := run (attempt (after_data data)) s in
  result (ui s') = result (ui s)
  \/ (length_gt_zero (opt_get (Some data) "suggestions") = Val true
      /\ exists (top : value) (record : PlantIdentification),
           top_suggestion data = Val top
           /\ identification top = Val record
           /\ result (ui s') = Some record).
Proof.
  cbv zeta. unfold after_data.
  destruct (length_gt_zero (opt_get (Some data) "suggestions")) as [[|]|e|];
    cbn [lift mbind async_bind bind]; try (left; reflexivity).
  destruct (top_suggestion data) as [top|e|] eqn:Htop;
    cbn [lift mbind async_bind bind]; try (left; reflexivity).
  destruct (identification top) as [record|e|] eqn:Hrec;
    cbn [lift mbind async_bind bind perform]; try (left; reflexivity).
  right. split; [reflexivity|]. exists top, record.
  split; [reflexivity | split; [exact Hrec|]].
  destruct (found_name top); reflexivity.
Qed.

(** X16.  The only delivery to an attempt that changes the result is a
    parsed body whose suggestion count is positive, and what it stores is
    the record built from [data.suggestions[0]]; answers to the encoding
    and to the request, failures, and bodies without suggestions leave the
    result as it is. *)
Theorem result_comes_from_first_suggestion (env : ImportMetaEnv) (s : session)
    (id : nat) (su : suspended) (a : reply) :
  pending s !! id = Some su ->
  in_attempt env su ->
  let s' := step env s (Deliver id a) in
  result (ui s') = result (ui s)
  \/ exists (r : Response) (data : json) (top : value) (record : PlantIdentification),
       su = awaiting_json r
       /\ a = JsonSettled (Fulfilled data)
       /\ length_gt_zero (opt_get (Some data) "suggestions") = Val true
       /\ top_suggestion data = Val top
       /\ identification top = Val record
       /\ result (ui s') = Some record.
Proof.
  intros Hp Hin. cbv zeta. revert Hp. destruct Hin as [file | text | r]; intros Hp.
  - left. destruct a as [[base64Image|] | o | o].
    + now rewrite (encoding_delivered env s id file base64Image Hp).
    + now rewrite (failure_delivered env s id _ _ _ Hp (encoding_failed env file)).
    + now rewrite (deliver_mismatch env s id _ _ Hp) by reflexivity.
    + now rewrite (deliver_mismatch env s id _ _ Hp) by reflexivity.
  - left. destruct a as [x | [r | e] | o].
    + now rewrite (deliver_mismatch env s id _ _ Hp) by reflexivity.
    + now rewrite (response_delivered env s id text r Hp).
    + now rewrite (failure_delivered env s id _ _ _ Hp (transport_failed env text e)).
    + now rewrite (deliver_mismatch env s id _ _ Hp) by reflexivity.
  - destruct a as [x | o | [data | e]].
    + left. now rewrite (deliver_mismatch env s id _ _ Hp) by reflexivity.
    + left. now rewrite (deliver_mismatch env s id _ _ Hp) by reflexivity.
    + rewrite (data_delivered env s id r data Hp).
      destruct (tail_stores_first_suggestion data (with_pending (delete id) s))
        as [Hsame | (Hpos & top & record & Htop & Hrec & Hres)].
      * left. exact Hsame.
      * right. exists r, data, top, record. repeat split; assumption.
    + left. now rewrite (failure_delivered env s id _ _ _ Hp (body_malformed env r e)).
Qed.

Lemma result_comes_from_first_suggestion_witness :
  let s' := step sample_env parsing_session (Deliver 3 (JsonSettled (Fulfilled monstera))) in
  result (ui s') = result (ui parsing_session)
  \/ exists (r : Response) (data : json) (top : value) (record : PlantIdentification),
       awaiting_json sample_response = awaiting_json r
       /\ JsonSettled (Fulfilled monstera) = JsonSettled (Fulfilled data)
       /\ length_gt_zero (opt_get (Some data) "suggestions") = Val true
       /\ top_suggestion data = Val top
       /\ identification top = Val record
       /\ result (ui s') = Some record.
Proof.
  apply (result_comes_from_first_suggestion sample_env parsing_session 3
           (awaiting_json sample_response) (JsonSettled (Fulfilled monstera)));
    [reflexivity | apply at_json].
Defined.

(** * Worked examples *)

(** ** Numbers as text *)

Example toFixed1_97 : toFixed1 (PrimFloat.mul 0.97 100) = Some "97.0".
Proof. vm_compute. reflexivity. Qed.

Example toFixed1_tie : toFixed1 1.25 = Some "1.3".
Proof. vm_compute. reflexivity. Qed.

Example toFixed1_small : toFixed1 (PrimFloat.mul 0.0004 100) = Some "0.0".
Proof. vm_compute. reflexivity. Qed.

Example toFixed1_negative : toFixed1 (PrimFloat.mul (-0.5) 100) = Some "-50.0".
Proof. vm_compute. reflexivity. Qed.

Example number_to_string_zero : number_to_string 0 = Some "0".
Proof. vm_compute. reflexivity. Qed.

Example number_to_string_int : number_to_string 1234 = Some "1234".
Proof. vm_compute. reflexivity. Qed.

Example number_to_string_frac : number_to_string 0.5 = None.
Proof. vm_compute. reflexivity. Qed.

(** ** The request body *)

Example request_text_sample :
  request_text sample_url
  = "{" +:+ String quote_char "images" +:+ String quote_char ":["
    +:+ String quote_char sample_url +:+ String quote_char "],"
    +:+ String quote_char "similar_images" +:+ String quote_char ":true}".
Proof. vm_compute. reflexivity. Qed.

Example quote_escapes :
  quote (String quote_char (String "010"%char "a"))
  = String quote_char
      (String backslash_char
         (String quote_char (String backslash_char ("na" +:+ String quote_char EmptyString)))).
Proof. vm_compute. reflexivity. Qed.

(** ** The scenarios of the specification *)

(** One suggestion, Monstera deliciosa at 0.97. *)
Example scenario_monstera :
  let s := step sample_env parsing_session
                (Deliver 3 (JsonSettled (Fulfilled monstera))) in
  ui s = {| isScanning := false;
            imagePreview := Some sample_url;
            result := Some {| common_names := Some (JArr [JStr "Swiss cheese plant"]);
                              scientific_name := Some (JStr "Monstera deliciosa");
                              probability := Some (JNum 0.97);
                              wiki_description := None;
                              taxonomy := Some (JObj [("family", JStr "Araceae");
                                                      ("genus", JStr "Monstera")]) |};
            fileInput := Some EmptyString |}
  /\ toasts s = [identified_toast "Monstera deliciosa"]
  /\ confidence_line (record_of monstera_top) = Val (Confidence "97.0%")
  /\ unhandled s = [] /\ beyond s = false.
Proof. vm_compute. repeat split. Qed.

(** An empty suggestion list. *)
Example scenario_no_match :
  let s := step sample_env parsing_session
                (Deliver 3 (JsonSettled (Fulfilled empty_list_response))) in
  result (ui s) = None
  /\ toasts s = [no_match_toast]
  /\ isScanning (ui s) = false.
Proof. vm_compute. repeat split. Qed.

(** The network call is rejected; the preview stays on the page. *)
Example scenario_network_error :
  let s := step sample_env requesting_session
                (Deliver 2 (FetchSettled (Rejected (Reason "Failed to fetch")))) in
  result (ui s) = None
  /\ toasts s = [error_toast]
  /\ imagePreview (ui s) = Some sample_url
  /\ isScanning (ui s) = false
  /\ unhandled s = [].
Proof. vm_compute. repeat split. Qed.

(** Picking no file changes nothing. *)
Example scenario_cancelled :
  step sample_env initial (Change (Some [])) = initial
  /\ step sample_env initial (Change None) = initial.
Proof. split; reflexivity. Qed.
